(** * K-point grid sizing of amlt-polymorph: [kgrid.py] and [job_control.py]

    The grid routines are numeric code over numpy floats.  The embedding reads
    every float as the real number it stands for (exact real arithmetic):
    [floor], [ceil], comparison and [np.isclose] are the real functions, and
    [x ** (1 / 3)] is the real cube root.  The float power can fall an ulp
    short of the real root (at exact cubes it may return a value just below
    the integer), so what rests on [mult ** 3] being the radicand (that the
    grid with all axes raised, or the all-ceil candidate, reaches the target)
    is a fact of exact real arithmetic and is marked as such.

    A run in which a quotient or a root is not a finite real (division by
    zero, root of a negative number) is [None]; the embedding does not follow
    it further.  Cell lengths are norms, never negative.  On such cells, in
    [get_kpts_from_kpd] and [safe_kgrid_from_cell_volume] numpy carries the
    inf or nan into an entry of [nkpt], and the closing [int(...)] raises on
    it: there [None] is a run that returns no grid.  In
    [kgrid_from_cell_volume] the same holds for [ngrid], [mult] and
    [mult / l] ([math.floor] and [math.ceil] raise); its error quotients
    [errorf] and [errorc] fail only for a target density of zero (the code
    then compares a nan and returns the all-floor candidate), and this file
    states nothing about that routine for such a density.

    Of [vasp_job_maker] the embedding covers the names the function builds:
    the directory of a job type, the directory of a structure and the job
    name.  Which of these directories a run makes depends on the files
    present, on the structure makers and on the error raised for an unknown
    structure type; these effects are not modelled. *)

From Stdlib Require Import Reals Lra Lia ZArith List Bool.
From Stdlib Require String Ascii DecimalString DecimalNat Finite.
Import ListNotations.
Import String.StringSyntax Ascii.AsciiSyntax.

Delimit Scope string_scope with string.
Delimit Scope char_scope with char.

#[local] Open Scope R_scope.

(** ** Python and numpy primitives *)

Module py.

(** The option monad carries "no finite real value". *)
Definition bind {A B : Type} (m : option A) (k : A -> option B) : option B :=
  match m with
  | Some a => k a
  | None => None
  end.

(** A loop that fills a list entry by entry and stops at the first entry
    without a value. *)
Fixpoint mapM {A B : Type} (f : A -> option B) (l : list A)
    : option (list B) :=
  match l with
  | [] => Some []
  | a :: l' =>
      match f a with
      | Some b =>
          match mapM f l' with
          | Some bs => Some (b :: bs)
          | None => None
          end
      | None => None
      end
  end.

(** [x / y] on floats. *)
Definition div (x y : R) : option R :=
  if Req_dec_T y 0 then None else Some (x / y).

(** The real cube root of a non-negative number. *)
Definition cube_root (x : R) : R :=
  if Rle_dec x 0 then 0 else Rpower x (1 / 3).

(** [x ** (1 / 3)]: nan on a negative base. *)
Definition pow_third (x : R) : option R :=
  if Rlt_dec x 0 then None else Some (cube_root x).

(** [max(x, y)] of Python: [y] when [y > x], else [x]. *)
Definition max (x y : R) : R :=
  if Rlt_dec x y then y else x.

(** [x < y] as a test. *)
Definition ltb (x y : R) : bool :=
  if Rlt_dec x y then true else false.

(** [int(x)]: truncation towards zero. *)
Definition int (x : R) : Z :=
  if Rlt_dec x 0 then Zceil x else Zfloor x.

(** [l[i]] on a list of floats. *)
Definition get (l : list R) (i : nat) : R := nth i l 0.

(** [l[i]] on a list of Python integers, read as a float. *)
Definition geti (l : list Z) (i : nat) : R := IZR (nth i l 0%Z).

(** [l[i] = v]. *)
Fixpoint set (l : list R) (i : nat) (v : R) : list R :=
  match l, i with
  | [], _ => []
  | _ :: l', O => v :: l'
  | x :: l', S i' => x :: set l' i' v
  end.

End py.

Notation "x <- m ;; k" := (py.bind m (fun x => k))
  (at level 61, m at next level, right associativity).

Module np.

Definition rtol : R := 1 / 100000.
Definition atol : R := 1 / 100000000.

(** [np.isclose(a, b)] with the default tolerances:
    [|a - b| <= atol + rtol * |b|]. *)
Definition isclose (a b : R) : bool :=
  if Rle_dec (Rabs (a - b)) (atol + rtol * Rabs b) then true else false.

(** [np.floor(x)] and [np.ceil(x)], as floats. *)
Definition floor (x : R) : R := IZR (Zfloor x).
Definition ceil (x : R) : R := IZR (Zceil x).

(** Insertion of index [i] into an index list sorted by [key], behind every
    index whose key is not larger. *)
Fixpoint insert_by (key : nat -> R) (i : nat) (l : list nat) : list nat :=
  match l with
  | [] => [i]
  | j :: l' =>
      if Rlt_dec (key i) (key j) then i :: l else j :: insert_by key i l'
  end.

(** [np.argsort(d)]: the indices of [d] in ascending order of value; on a
    three-element array numpy sorts by insertion, equal values keep their
    index order. *)
Definition argsort (d : list R) : list nat :=
  fold_left (fun acc i => insert_by (py.get d) i acc) (seq 0 (length d)) [].

End np.

(** ** The structure object

    What the routines read from an [ase.Atoms]: the three cell lengths (the
    first three entries of [get_cell_lengths_and_angles()]), the volume, and
    the norms of the reciprocal cell vectors (read by the printed report only,
    which the embedding leaves out). *)

Record Atoms : Type := mkAtoms {
  cell_a : R;
  cell_b : R;
  cell_c : R;
  get_volume : R;
  rcell_norms : list R
}.

Definition get_cell_lengths (atoms : Atoms) : list R :=
  [cell_a atoms; cell_b atoms; cell_c atoms].

(** State of the repair pass: the grid [nkpt], [actual_kpd] and the rank [i]
    of the next axis to check. *)
Definition repair_state : Type := (list R * R * nat)%type.

(** ** kgrid.py *)

Module kgrid.

(** [vol * nkpt[0]*nkpt[1]*nkpt[2]] *)
Definition density (vol : R) (nkpt : list R) : R :=
  vol * py.get nkpt 0 * py.get nkpt 1 * py.get nkpt 2.

(** [nkpt[k] = nkpt[k] + step] *)
Definition bump (step : R) (nkpt : list R) (k : nat) : list R :=
  py.set nkpt k (py.get nkpt k + step).

(** [check_order[r]] *)
Definition rank (check_order : list nat) (r : nat) : nat :=
  nth r check_order O.

(** Lines 37-60: the tie-aware batch bump. *)
Definition batch (vol kpd step : R) (nkpt_frac : list R)
    (check_order : list nat) (nkpt : list R) (actual_kpd : R)
    : repair_state :=
  let o0 := rank check_order 0 in
  let o1 := rank check_order 1 in
  let o2 := rank check_order 2 in
  if py.ltb actual_kpd kpd then
    if np.isclose (py.get nkpt_frac o0) (py.get nkpt_frac o1)
       && np.isclose (py.get nkpt_frac o1) (py.get nkpt_frac o2) then
      let nkpt := bump step nkpt o0 in
      let nkpt := bump step nkpt o1 in
      let nkpt := bump step nkpt o2 in
      (nkpt, density vol nkpt, 3%nat)
    else if np.isclose (py.get nkpt_frac o0) (py.get nkpt_frac o1) then
      let nkpt := bump step nkpt o0 in
      let nkpt := bump step nkpt o1 in
      (nkpt, density vol nkpt, 2%nat)
    else if np.isclose (py.get nkpt_frac o1) (py.get nkpt_frac o2) then
      let nkpt := bump step nkpt o0 in
      let actual_kpd := density vol nkpt in
      if py.ltb actual_kpd kpd then
        let nkpt := bump step nkpt o1 in
        let nkpt := bump step nkpt o2 in
        (nkpt, density vol nkpt, 3%nat)
      else (nkpt, actual_kpd, 3%nat)
    else (nkpt, actual_kpd, 0%nat)
  else (nkpt, actual_kpd, 0%nat).

(** Lines 62-65: [while actual_kpd < kpd and i <= 2].  Each turn raises
    [i], so [n] turns are enough from a state with [3 - i <= n]. *)
Fixpoint loop (n : nat) (vol kpd step : R) (check_order : list nat)
    (st : repair_state) : repair_state :=
  match n with
  | O => st
  | S n' =>
      let '(nkpt, actual_kpd, i) := st in
      if py.ltb actual_kpd kpd && (i <=? 2)%nat then
        let nkpt := bump step nkpt (rank check_order i) in
        loop n' vol kpd step check_order (nkpt, density vol nkpt, S i)
      else st
  end.

(** Lines 29-65: from the fractional counts to the repaired grid. *)
Definition solve (vol kpd step : R) (nkpt_frac : list R) : repair_state :=
  let nkpt := map (fun f => np.floor (f / step) * step) nkpt_frac in
  let delta_ceil := map (fun f => np.ceil (f / step) * step - f) nkpt_frac in
  let actual_kpd := density vol nkpt in
  let check_order := np.argsort delta_ceil in
  let st := batch vol kpd step nkpt_frac check_order nkpt actual_kpd in
  loop 3 vol kpd step check_order st.

(** Lines 8-11. *)
Definition step_of (only_even : bool) : R :=
  if only_even then 2 else 1.

(** Lines 17-27: the fractional count of every axis. *)
Definition fractions (atoms : Atoms) (kpd step : R) : option (list R) :=
  let lengths := get_cell_lengths atoms in
  let vol := get_volume atoms in
  min_kpts <- py.div kpd vol ;;
  mult <- py.pow_third
            (min_kpts * py.get lengths 0 * py.get lengths 1
             * py.get lengths 2) ;;
  py.mapM (fun l => q <- py.div mult l ;; Some (py.max q step)) lengths.

(** The grid and the density it reaches (lines 4-67). *)
Definition kpts_and_density (atoms : Atoms) (kpd : R) (only_even : bool)
    : option (list Z * R) :=
  let step := step_of only_even in
  nkpt_frac <- fractions atoms kpd step ;;
  let '(nkpt, actual_kpd, _) := solve (get_volume atoms) kpd step nkpt_frac in
  Some (map py.int nkpt, actual_kpd).

(** The value returned by [get_kpts_from_kpd(atoms, kpd, only_even)]; lines
    69-73 only print and are left out. *)
Definition get_kpts_from_kpd (atoms : Atoms) (kpd : R) (only_even : bool)
    : option (list Z) :=
  r <- kpts_and_density atoms kpd only_even ;;
  Some (fst r).

(** *** [safe_kgrid_from_cell_volume] (lines 81-132) *)

Definition safe_batch (vol kpd : R) (nkpt_frac : list R)
    (check_order : list nat) (nkpt : list R) (actual_kpd : R)
    : repair_state :=
  let o0 := rank check_order 0 in
  let o1 := rank check_order 1 in
  let o2 := rank check_order 2 in
  if py.ltb actual_kpd kpd then
    if np.isclose (py.get nkpt_frac o0) (py.get nkpt_frac o1)
       && np.isclose (py.get nkpt_frac o1) (py.get nkpt_frac o2) then
      let nkpt := py.set nkpt o0 (py.get nkpt o0 + 1) in
      let nkpt := py.set nkpt o1 (py.get nkpt o1 + 1) in
      let nkpt := py.set nkpt o2 (py.get nkpt o2 + 1) in
      (nkpt, density vol nkpt, 3%nat)
    else if np.isclose (py.get nkpt_frac o0) (py.get nkpt_frac o1) then
      let nkpt := py.set nkpt o0 (py.get nkpt o0 + 1) in
      let nkpt := py.set nkpt o1 (py.get nkpt o1 + 1) in
      (nkpt, density vol nkpt, 2%nat)
    else if np.isclose (py.get nkpt_frac o1) (py.get nkpt_frac o2) then
      let nkpt := py.set nkpt o0 (py.get nkpt o0 + 1) in
      let actual_kpd := density vol nkpt in
      if py.ltb actual_kpd kpd then
        let nkpt := py.set nkpt o1 (py.get nkpt o1 + 1) in
        let nkpt := py.set nkpt o2 (py.get nkpt o2 + 1) in
        (nkpt, density vol nkpt, 3%nat)
      else (nkpt, actual_kpd, 3%nat)
    else (nkpt, actual_kpd, 0%nat)
  else (nkpt, actual_kpd, 0%nat).

Fixpoint safe_loop (n : nat) (vol kpd : R) (check_order : list nat)
    (st : repair_state) : repair_state :=
  match n with
  | O => st
  | S n' =>
      let '(nkpt, actual_kpd, i) := st in
      if py.ltb actual_kpd kpd && (i <=? 2)%nat then
        let k := rank check_order i in
        let nkpt := py.set nkpt k (py.get nkpt k + 1) in
        safe_loop n' vol kpd check_order (nkpt, density vol nkpt, S i)
      else st
  end.

Definition safe_kgrid_from_cell_volume (atoms : Atoms) (kpoint_density : R)
    : option (list Z) :=
  let kpd := kpoint_density in
  let vol := get_volume atoms in
  let lengths := get_cell_lengths atoms in
  ngrid <- py.div kpd vol ;;
  mult <- py.pow_third
            (ngrid * py.get lengths 0 * py.get lengths 1
             * py.get lengths 2) ;;
  nkpt_frac <- py.mapM (fun l => q <- py.div mult l ;; Some (py.max q 1))
                 lengths ;;
  let nkpt := map np.floor nkpt_frac in
  let delta_ceil := map (fun f => np.ceil f - f) nkpt_frac in
  let actual_kpd := density vol nkpt in
  let check_order := np.argsort delta_ceil in
  let st := safe_batch vol kpd nkpt_frac check_order nkpt actual_kpd in
  let '(nkpt, _, _) := safe_loop 3 vol kpd check_order st in
  Some (map py.int nkpt).

(** *** [kgrid_from_cell_volume] (lines 138-163) *)

Definition kgrid_from_cell_volume (atoms : Atoms) (kpoint_density : R)
    : option (list Z) :=
  let kpd := kpoint_density in
  let lengths := get_cell_lengths atoms in
  ngrid <- py.div kpd (get_volume atoms) ;;
  mult <- py.pow_third
            (ngrid * py.get lengths 0 * py.get lengths 1
             * py.get lengths 2) ;;
  num_divf <- py.mapM (fun l => q <- py.div mult l ;;
                                Some (Zfloor (py.max q 1))) lengths ;;
  let kpdf := get_volume atoms * py.geti num_divf 0 * py.geti num_divf 1
              * py.geti num_divf 2 in
  errorf <- py.div (Rabs (kpd - kpdf)) kpdf ;;
  num_divc <- py.mapM (fun l => q <- py.div mult l ;; Some (Zceil q))
                lengths ;;
  let kpdc := get_volume atoms * py.geti num_divc 0 * py.geti num_divc 1
              * py.geti num_divc 2 in
  errorc <- py.div (Rabs (kpd - kpdc)) kpdc ;;
  Some (if py.ltb errorc errorf then num_divc else num_divf).

End kgrid.

(** ** job_control.py *)

Module job_control.

(** *** [vasp_job_maker] (lines 11-140): where the files of a job go *)

(** An entry of [jobs]: [job_type[0]], [job_type[1]] and [job_type[2]]. *)
Record job_type : Type := mkJob {
  job_count : Z;
  structure_type : String.string;
  calculator : String.string
}.

(** [str(n)] of a number of [range(...)]. *)
Definition str (n : nat) : String.string :=
  DecimalString.NilEmpty.string_of_uint (Nat.to_uint n).

(** Line 56: [job_type[1] + '_' + job_type[2] + '/']. *)
Definition job_type_dir (job : job_type) : String.string :=
  String.append
    (String.append (String.append (structure_type job) "_"%string)
       (calculator job))
    "/"%string.

(** Line 67: [job_type_dir + str(structure_number) + '/']. *)
Definition struct_dir (job : job_type) (structure_number : nat)
    : String.string :=
  String.append (String.append (job_type_dir job) (str structure_number))
    "/"%string.

(** Lines 106-110: ["{}_{}_{}_{}".format(name_prefix, job_type[1],
    job_type[2], structure_number)]. *)
Definition job_name (name_prefix : String.string) (job : job_type)
    (structure_number : nat) : String.string :=
  String.append name_prefix
    (String.append "_"%string
       (String.append (structure_type job)
          (String.append "_"%string
             (String.append (calculator job)
                (String.append "_"%string (str structure_number)))))).

(** Lines 75-86: the structure types that do not raise. *)
Definition recognised (t : String.string) : Prop :=
  t = "random"%string \/ t = "polymorphD3"%string \/ t = "known"%string.

(** *** [safe_kgrid_from_cell_volume] (lines 145-196) *)

Definition density (vol : R) (nkpt : list R) : R :=
  vol * py.get nkpt 0 * py.get nkpt 1 * py.get nkpt 2.

Definition rank (check_order : list nat) (r : nat) : nat :=
  nth r check_order O.

Definition safe_batch (vol kpd : R) (nkpt_frac : list R)
    (check_order : list nat) (nkpt : list R) (actual_kpd : R)
    : repair_state :=
  let o0 := rank check_order 0 in
  let o1 := rank check_order 1 in
  let o2 := rank check_order 2 in
  if py.ltb actual_kpd kpd then
    if np.isclose (py.get nkpt_frac o0) (py.get nkpt_frac o1)
       && np.isclose (py.get nkpt_frac o1) (py.get nkpt_frac o2) then
      let nkpt := py.set nkpt o0 (py.get nkpt o0 + 1) in
      let nkpt := py.set nkpt o1 (py.get nkpt o1 + 1) in
      let nkpt := py.set nkpt o2 (py.get nkpt o2 + 1) in
      (nkpt, density vol nkpt, 3%nat)
    else if np.isclose (py.get nkpt_frac o0) (py.get nkpt_frac o1) then
      let nkpt := py.set nkpt o0 (py.get nkpt o0 + 1) in
      let nkpt := py.set nkpt o1 (py.get nkpt o1 + 1) in
      (nkpt, density vol nkpt, 2%nat)
    else if np.isclose (py.get nkpt_frac o1) (py.get nkpt_frac o2) then
      let nkpt := py.set nkpt o0 (py.get nkpt o0 + 1) in
      let actual_kpd := density vol nkpt in
      if py.ltb actual_kpd kpd then
        let nkpt := py.set nkpt o1 (py.get nkpt o1 + 1) in
        let nkpt := py.set nkpt o2 (py.get nkpt o2 + 1) in
        (nkpt, density vol nkpt, 3%nat)
      else (nkpt, actual_kpd, 3%nat)
    else (nkpt, actual_kpd, 0%nat)
  else (nkpt, actual_kpd, 0%nat).

Fixpoint safe_loop (n : nat) (vol kpd : R) (check_order : list nat)
    (st : repair_state) : repair_state :=
  match n with
  | O => st
  | S n' =>
      let '(nkpt, actual_kpd, i) := st in
      if py.ltb actual_kpd kpd && (i <=? 2)%nat then
        let k := rank check_order i in
        let nkpt := py.set nkpt k (py.get nkpt k + 1) in
        safe_loop n' vol kpd check_order (nkpt, density vol nkpt, S i)
      else st
  end.

Definition safe_kgrid_from_cell_volume (atoms : Atoms) (kpoint_density : R)
    : option (list Z) :=
  let kpd := kpoint_density in
  let lengths := get_cell_lengths atoms in
  let vol := get_volume atoms in
  ngrid <- py.div kpd vol ;;
  mult <- py.pow_third
            (ngrid * py.get lengths 0 * py.get lengths 1
             * py.get lengths 2) ;;
  nkpt_frac <- py.mapM (fun l => q <- py.div mult l ;; Some (py.max q 1))
                 lengths ;;
  let nkpt := map np.floor nkpt_frac in
  let delta_ceil := map (fun f => np.ceil f - f) nkpt_frac in
  let actual_kpd := density vol nkpt in
  let check_order := np.argsort delta_ceil in
  let st := safe_batch vol kpd nkpt_frac check_order nkpt actual_kpd in
  let '(nkpt, _, _) := safe_loop 3 vol kpd check_order st in
  Some (map py.int nkpt).

(** *** [kgrid_from_cell_volume] (lines 199-224) *)

Definition kgrid_from_cell_volume (atoms : Atoms) (kpoint_density : R)
    : option (list Z) :=
  let kpd := kpoint_density in
  let lengths := get_cell_lengths atoms in
  ngrid <- py.div kpd (get_volume atoms) ;;
  mult <- py.pow_third
            (ngrid * py.get lengths 0 * py.get lengths 1
             * py.get lengths 2) ;;
  num_divf <- py.mapM (fun l => q <- py.div mult l ;;
                                Some (Zfloor (py.max q 1))) lengths ;;
  let kpdf := get_volume atoms * py.geti num_divf 0 * py.geti num_divf 1
              * py.geti num_divf 2 in
  errorf <- py.div (Rabs (kpd - kpdf)) kpdf ;;
  num_divc <- py.mapM (fun l => q <- py.div mult l ;; Some (Zceil q))
                lengths ;;
  let kpdc := get_volume atoms * py.geti num_divc 0 * py.geti num_divc 1
              * py.geti num_divc 2 in
  errorc <- py.div (Rabs (kpd - kpdc)) kpdc ;;
  Some (if py.ltb errorc errorf then num_divc else num_divf).

End job_control.

(** ** Vocabulary of the statements *)

(** The count [n], raised by [step] when [b] holds. *)
Definition raised (step : R) (b : bool) (n : R) : R :=
  if b then n + step else n.

(** A state of the repair pass over the floored grid [n0, n1, n2]: every axis
    is raised at most once, the density kept in the state is the density of
    the grid, and the target is reached unless all three axes are raised. *)
Definition settled (vol kpd step n0 n1 n2 : R) (st : repair_state) : Prop :=
  exists (b0 b1 b2 : bool) (i : nat),
    let g := [raised step b0 n0; raised step b1 n1; raised step b2 n2] in
    st = (g, kgrid.density vol g, i)
    /\ (kpd <= kgrid.density vol g
        \/ (b0 = true /\ b1 = true /\ b2 = true)).

(** Valid input of the solver: positive lengths, volume and target density. *)
Definition valid_input (atoms : Atoms) (kpd : R) : Prop :=
  0 < cell_a atoms /\ 0 < cell_b atoms /\ 0 < cell_c atoms
  /\ 0 < get_volume atoms /\ 0 < kpd.

(** The isotropic multiplier [mult] of a call. *)
Definition mult_of (atoms : Atoms) (kpd : R) : R :=
  py.cube_root (kpd / get_volume atoms * cell_a atoms * cell_b atoms
                * cell_c atoms).

(** The fractional count [nkpt_frac[i]] of an axis of length [l]. *)
Definition frac_of (atoms : Atoms) (kpd step l : R) : R :=
  py.max (mult_of atoms kpd / l) step.

(** [step] as a Python integer. *)
Definition step_z (only_even : bool) : Z := if only_even then 2%Z else 1%Z.

(** The count of an axis: the floored fractional count, raised by one step
    when [b] holds. *)
Definition count_of (only_even b : bool) (f : R) : Z :=
  ((Zfloor (f / kgrid.step_of only_even) + Z.b2z b) * step_z only_even)%Z.

(** Orthorhombic cell 1 x 1 x 2. *)
Definition slab : Atoms := mkAtoms 1 1 2 2 [1; 1; 1 / 2].

(** Unit cube. *)
Definition unit_cube : Atoms := mkAtoms 1 1 1 1 [1; 1; 1].

(** The floored grid [nkpt] of line 29 and the ranking [check_order] of
    line 34. *)
Definition floor_grid (step : R) (nkpt_frac : list R) : list R :=
  map (fun f => np.floor (f / step) * step) nkpt_frac.

Definition check_order_of (step : R) (nkpt_frac : list R) : list nat :=
  np.argsort (map (fun f => np.ceil (f / step) * step - f) nkpt_frac).

(** Cell 3 x 3 x 2. *)
Definition plate : Atoms := mkAtoms 3 3 2 18 [1 / 3; 1 / 3; 1 / 2].

(** The all-floor candidate (with a floor of 1 per axis), the all-ceil
    candidate, and the density of a grid. *)
Definition floor_candidate (atoms : Atoms) (kpd : R) : list Z :=
  map (fun l => Zfloor (py.max (mult_of atoms kpd / l) 1))
    (get_cell_lengths atoms).

Definition ceil_candidate (atoms : Atoms) (kpd : R) : list Z :=
  map (fun l => Zceil (mult_of atoms kpd / l)) (get_cell_lengths atoms).

Definition grid_density (atoms : Atoms) (g : list Z) : R :=
  get_volume atoms * py.geti g 0 * py.geti g 1 * py.geti g 2.

(** The error of a density [d] relative to the target [kpd], and relative to
    [d] itself. *)
Definition error_vs_target (kpd d : R) : R := Rabs (d - kpd) / kpd.
Definition error_vs_own (kpd d : R) : R := Rabs (kpd - d) / d.

(** The choice in the words of the specification: the candidate with the lower
    relative error versus the target, all-ceil only when strictly lower. *)
Definition kgrid_from_cell_volume_spec (atoms : Atoms) (kpd : R) : list Z :=
  if Rlt_dec (error_vs_target kpd (grid_density atoms (ceil_candidate atoms kpd)))
       (error_vs_target kpd (grid_density atoms (floor_candidate atoms kpd)))
  then ceil_candidate atoms kpd
  else floor_candidate atoms kpd.

(** The choice of the code: errors are taken relative to the density of the
    candidate. *)
Definition own_error_choice (atoms : Atoms) (kpd : R) : list Z :=
  if Rlt_dec (error_vs_own kpd (grid_density atoms (ceil_candidate atoms kpd)))
       (error_vs_own kpd (grid_density atoms (floor_candidate atoms kpd)))
  then ceil_candidate atoms kpd
  else floor_candidate atoms kpd.

(** The grid [nkpt] with the [m] best-ranked axes of [check_order] raised by
    [step]. *)
Definition raise_prefix (step : R) (nkpt : list R) (check_order : list nat)
    (m : nat) : list R :=
  fold_left (kgrid.bump step) (firstn m check_order) nkpt.

(** The three fractional counts of a call. *)
Definition fracs_of (atoms : Atoms) (kpd step : R) : list R :=
  map (frac_of atoms kpd step) (get_cell_lengths atoms).

(** The structure [atoms] with another volume. *)
Definition with_volume (atoms : Atoms) (vol : R) : Atoms :=
  mkAtoms (cell_a atoms) (cell_b atoms) (cell_c atoms) vol (rcell_norms atoms).

(** A state of the repair pass over the grid [nkpt] ranked by [check_order]:
    the [m] best-ranked axes are raised and no other; none is raised when
    [nkpt] reaches the target, at least one when it does not; the target is
    reached unless all three axes are raised. *)
Definition ranked_repair (vol kpd step : R) (nkpt : list R)
    (check_order : list nat) (st : repair_state) : Prop :=
  exists m i : nat,
    (m <= 3)%nat
    /\ st = (raise_prefix step nkpt check_order m,
             kgrid.density vol (raise_prefix step nkpt check_order m), i)
    /\ (kpd <= kgrid.density vol nkpt -> m = 0%nat)
    /\ (kgrid.density vol nkpt < kpd -> (1 <= m)%nat)
    /\ (kpd <= kgrid.density vol (raise_prefix step nkpt check_order m)
        \/ m = 3%nat).

(** Axis [i] is among the [m] best-ranked axes of [check_order]. *)
Definition raised_by (check_order : list nat) (m i : nat) : bool :=
  existsb (Nat.eqb i) (firstn m check_order).

(** Orthorhombic cell 1 x 2 x 4. *)
Definition stair : Atoms := mkAtoms 1 2 4 8 [1; 1 / 2; 1 / 4].

(** A state of the repair pass with its density scaled by [c]. *)
Definition scale_state (c : R) (st : repair_state) : repair_state :=
  let '(nkpt, actual_kpd, i) := st in (nkpt, c * actual_kpd, i).

(** ** Facts about the primitives *)

Lemma cube_root_pos (x : R) : 0 < x -> 0 < py.cube_root x.
Proof.
  intros Hx. unfold py.cube_root.
  destruct (Rle_dec x 0) as [H | _]; [lra |].
  unfold Rpower. apply exp_pos.
Qed.

Lemma cube_root_cube (x : R) :
  0 <= x -> py.cube_root x * py.cube_root x * py.cube_root x = x.
Proof.
  intros Hx. unfold py.cube_root.
  destruct (Rle_dec x 0) as [H | H].
  - replace x with 0 by lra. ring.
  - assert (Hp : 0 < x) by lra.
    assert (E : Rpower (Rpower x (1 / 3)) (INR 3) = x).
    { rewrite Rpower_mult.
      replace (1 / 3 * INR 3) with 1 by (simpl; field).
      now apply Rpower_1. }
    rewrite Rpower_pow in E by apply exp_pos.
    simpl in E. lra.
Qed.

Lemma cube_root_of_cube (m : R) : 0 <= m -> py.cube_root (m * m * m) = m.
Proof.
  intros Hm. unfold py.cube_root.
  destruct (Rle_dec (m * m * m) 0) as [H | H].
  - destruct (Req_dec m 0) as [-> | Hne]; [reflexivity |].
    assert (0 < m) by lra.
    assert (0 < m * m * m) by (repeat apply Rmult_lt_0_compat; assumption).
    lra.
  - assert (Hp : 0 < m).
    { destruct (Req_dec m 0) as [-> | Hne]; [exfalso; apply H; lra | lra]. }
    replace (m * m * m) with (m ^ 3) by (simpl; ring).
    rewrite <- Rpower_pow by assumption.
    rewrite Rpower_mult.
    replace (INR 3 * (1 / 3)) with 1 by (simpl; field).
    now apply Rpower_1.
Qed.

Lemma cube_root_le (x y : R) :
  0 <= x -> x <= y -> py.cube_root x <= py.cube_root y.
Proof.
  intros Hx Hxy. unfold py.cube_root.
  destruct (Rle_dec x 0) as [H0 | H0]; destruct (Rle_dec y 0) as [H1 | H1];
    try lra.
  - unfold Rpower. left. apply exp_pos.
  - apply Rle_Rpower_l; lra.
Qed.

Lemma argsort3 (d0 d1 d2 : R) :
  In (np.argsort [d0; d1; d2])
     [[0; 1; 2]; [0; 2; 1]; [1; 0; 2]; [1; 2; 0]; [2; 0; 1]; [2; 1; 0]]%nat.
Proof.
  unfold np.argsort; cbn.
  destruct (Rlt_dec d1 d0); cbn;
    destruct (Rlt_dec d2 d0); cbn;
    destruct (Rlt_dec d2 d1); cbn;
    repeat (first [left; reflexivity | right]); lra.
Qed.

Lemma ltb_false (x y : R) : py.ltb x y = false -> y <= x.
Proof.
  unfold py.ltb. destruct (Rlt_dec x y); [discriminate | lra].
Qed.

Lemma ltb_true (x y : R) : py.ltb x y = true -> x < y.
Proof.
  unfold py.ltb. destruct (Rlt_dec x y); [trivial | discriminate].
Qed.

Ltac settle_with b0 b1 b2 :=
  exists b0, b1, b2; eexists; cbv zeta; split; [reflexivity |];
  first
    [ right; repeat split; reflexivity
    | left; match goal with
            | E : py.ltb _ _ = false |- _ => exact (ltb_false _ _ E)
            end ].

Ltac settle_leaf :=
  unfold settled;
  first
    [ settle_with false false false | settle_with true false false
    | settle_with false true false | settle_with false false true
    | settle_with true true false | settle_with true false true
    | settle_with false true true | settle_with true true true ].

Ltac settle_step :=
  match goal with
  | |- settled _ _ _ _ _ _ (if ?c then _ else _) =>
      let E := fresh "E" in
      destruct c eqn:E;
      rewrite ?andb_false_r, ?andb_true_r in E;
      try discriminate E
  | |- settled _ _ _ _ _ _ (kgrid.loop _ _ _ _ _ (if ?c then _ else _)) =>
      let E := fresh "E" in
      destruct c eqn:E
  | |- settled _ _ _ _ _ _ (kgrid.loop _ _ _ _ _ (_, _, _)) =>
      cbn [kgrid.loop kgrid.bump kgrid.rank nth py.get py.set Nat.leb]
  | |- settled _ _ _ _ _ _ (_, _, _) => settle_leaf
  end.

Lemma solve_settled (vol kpd step f0 f1 f2 : R) :
  settled vol kpd step
    (np.floor (f0 / step) * step) (np.floor (f1 / step) * step)
    (np.floor (f2 / step) * step)
    (kgrid.solve vol kpd step [f0; f1; f2]).
Proof.
  unfold kgrid.solve.
  set (o := np.argsort _).
  assert (Ho : In o [[0; 1; 2]; [0; 2; 1]; [1; 0; 2]; [1; 2; 0];
                     [2; 0; 1]; [2; 1; 0]]%nat) by apply argsort3.
  clearbody o.
  set (n0 := np.floor (f0 / step) * step).
  set (n1 := np.floor (f1 / step) * step).
  set (n2 := np.floor (f2 / step) * step).
  cbn [map]. fold n0 n1 n2. clearbody n0 n1 n2.
  unfold kgrid.batch.
  cbn [In] in Ho.
  decompose [or] Ho; try contradiction; subst o; clear Ho;
    cbn [kgrid.bump kgrid.rank nth py.get py.set];
    repeat settle_step.
Qed.

(** Three turns of the loop are all the source can make: more turns leave
    the state as it is. *)
Lemma loop_turns_enough (n m : nat) (vol kpd step : R) (o : list nat)
    (nkpt : list R) (a : R) (i : nat) :
  (3 - i <= n)%nat ->
  kgrid.loop (n + m) vol kpd step o (nkpt, a, i)
  = kgrid.loop n vol kpd step o (nkpt, a, i).
Proof.
  revert nkpt a i. induction n as [| n IH]; intros nkpt a i Hi.
  - cbn [Nat.add kgrid.loop]. destruct m as [| m]; [reflexivity |].
    cbn [kgrid.loop].
    replace (i <=? 2)%nat with false
      by (symmetry; apply Nat.leb_gt; lia).
    now rewrite andb_false_r.
  - cbn [Nat.add kgrid.loop].
    destruct (py.ltb a kpd && (i <=? 2)%nat); [| reflexivity].
    apply IH. lia.
Qed.

Lemma step_of_IZR (e : bool) : kgrid.step_of e = IZR (step_z e).
Proof. destruct e; reflexivity. Qed.

Lemma step_of_pos (e : bool) : 0 < kgrid.step_of e.
Proof. destruct e; cbn; lra. Qed.

Lemma int_IZR (z : Z) : py.int (IZR z) = z.
Proof.
  unfold py.int. destruct (Rlt_dec (IZR z) 0).
  - apply Zceil_eq. lra.
  - apply ZfloorZ.
Qed.

Lemma raised_count (e b : bool) (f : R) :
  raised (kgrid.step_of e) b (np.floor (f / kgrid.step_of e) * kgrid.step_of e)
  = IZR (count_of e b f).
Proof.
  unfold count_of, raised, np.floor.
  rewrite mult_IZR, plus_IZR, <- step_of_IZR.
  destruct b; cbn [Z.b2z]; ring.
Qed.

Lemma py_max_le_l (x y : R) : x <= py.max x y.
Proof. unfold py.max. destruct (Rlt_dec x y); lra. Qed.

Lemma py_max_le_r (x y : R) : y <= py.max x y.
Proof. unfold py.max. destruct (Rlt_dec x y); lra. Qed.

Lemma py_max_mono (x x' y : R) : x <= x' -> py.max x y <= py.max x' y.
Proof.
  unfold py.max. intros H.
  destruct (Rlt_dec x y), (Rlt_dec x' y); lra.
Qed.

Lemma div_some (x y : R) : y <> 0 -> py.div x y = Some (x / y).
Proof.
  intros H. unfold py.div. destruct (Req_dec_T y 0); [contradiction | reflexivity].
Qed.

Lemma pow_third_some (x : R) : 0 <= x -> py.pow_third x = Some (py.cube_root x).
Proof.
  intros H. unfold py.pow_third. destruct (Rlt_dec x 0); [lra | reflexivity].
Qed.

(** A raised count lies strictly above the fractional count. *)
Lemma count_raised_gt (e : bool) (f : R) : f < IZR (count_of e true f).
Proof.
  unfold count_of. cbn [Z.b2z].
  rewrite mult_IZR, plus_IZR, <- step_of_IZR.
  pose proof (step_of_pos e) as Hs.
  pose proof (Zfloor_bound (f / kgrid.step_of e)) as [_ Hf].
  apply (Rmult_lt_compat_r (kgrid.step_of e)) in Hf; [| assumption].
  replace (f / kgrid.step_of e * kgrid.step_of e) with f in Hf
    by (field; lra).
  exact Hf.
Qed.

Lemma mult3_le (x y z x' y' z' : R) :
  0 <= x -> 0 <= y -> 0 <= z -> x <= x' -> y <= y' -> z <= z' ->
  x * y * z <= x' * y' * z'.
Proof.
  intros. apply Rmult_le_compat; try assumption.
  - now apply Rmult_le_pos.
  - apply Rmult_le_compat; assumption.
Qed.

(** ** Runs on valid input *)

Section ValidInput.

Variables (atoms : Atoms) (kpd : R).
Hypothesis Hvalid : valid_input atoms kpd.

Lemma radicand_pos :
  0 < kpd / get_volume atoms * cell_a atoms * cell_b atoms * cell_c atoms.
Proof.
  destruct Hvalid as (Ha & Hb & Hc & Hv & Hk).
  assert (0 < kpd / get_volume atoms) by now apply Rdiv_lt_0_compat.
  do 3 (apply Rmult_lt_0_compat; [| assumption]). assumption.
Qed.

Lemma mult_of_pos : 0 < mult_of atoms kpd.
Proof. apply cube_root_pos, radicand_pos. Qed.

(** No quotient or root fails, and the fractional counts are
    [max(mult / l, step)] for the three lengths. *)
Lemma fractions_valid (step : R) :
  kgrid.fractions atoms kpd step
  = Some [frac_of atoms kpd step (cell_a atoms);
          frac_of atoms kpd step (cell_b atoms);
          frac_of atoms kpd step (cell_c atoms)].
Proof.
  pose proof radicand_pos as Hr.
  destruct Hvalid as (Ha & Hb & Hc & Hv & Hk).
  unfold kgrid.fractions, get_cell_lengths.
  cbn [py.get nth].
  rewrite div_some by lra. cbn [py.bind].
  rewrite pow_third_some by lra. cbn [py.bind py.mapM].
  rewrite !div_some by lra. cbn [py.bind].
  reflexivity.
Qed.

(** The run of [get_kpts_from_kpd]: it returns a grid, every axis holds its
    floored count raised at most once, and the grid reaches the target unless
    all three axes were raised. *)
Lemma kpts_and_density_valid (e : bool) :
  exists b0 b1 b2 : bool,
    let s := kgrid.step_of e in
    let z0 := count_of e b0 (frac_of atoms kpd s (cell_a atoms)) in
    let z1 := count_of e b1 (frac_of atoms kpd s (cell_b atoms)) in
    let z2 := count_of e b2 (frac_of atoms kpd s (cell_c atoms)) in
    let d := get_volume atoms * IZR z0 * IZR z1 * IZR z2 in
    kgrid.kpts_and_density atoms kpd e = Some ([z0; z1; z2], d)
    /\ (kpd <= d \/ (b0 = true /\ b1 = true /\ b2 = true)).
Proof.
  unfold kgrid.kpts_and_density.
  rewrite fractions_valid. cbn [py.bind].
  destruct (solve_settled (get_volume atoms) kpd (kgrid.step_of e)
              (frac_of atoms kpd (kgrid.step_of e) (cell_a atoms))
              (frac_of atoms kpd (kgrid.step_of e) (cell_b atoms))
              (frac_of atoms kpd (kgrid.step_of e) (cell_c atoms)))
    as (b0 & b1 & b2 & i & Heq & Hd).
  cbv zeta in Heq, Hd. rewrite Heq. clear Heq.
  rewrite !raised_count in *.
  exists b0, b1, b2. cbv zeta. cbn [map].
  rewrite !int_IZR. split; [reflexivity | exact Hd].
Qed.

Lemma get_kpts_valid (e : bool) :
  exists b0 b1 b2 : bool,
    let s := kgrid.step_of e in
    let z0 := count_of e b0 (frac_of atoms kpd s (cell_a atoms)) in
    let z1 := count_of e b1 (frac_of atoms kpd s (cell_b atoms)) in
    let z2 := count_of e b2 (frac_of atoms kpd s (cell_c atoms)) in
    kgrid.get_kpts_from_kpd atoms kpd e = Some [z0; z1; z2]
    /\ (kpd <= get_volume atoms * IZR z0 * IZR z1 * IZR z2
        \/ (b0 = true /\ b1 = true /\ b2 = true)).
Proof.
  destruct (kpts_and_density_valid e) as (b0 & b1 & b2 & Heq & Hd).
  exists b0, b1, b2. cbv zeta in *. unfold kgrid.get_kpts_from_kpd.
  rewrite Heq. cbn [py.bind fst]. split; [reflexivity | exact Hd].
Qed.

(** The quotients [mult / l] multiply to [kpd / vol]. *)
Lemma quotients_product :
  get_volume atoms
  * (mult_of atoms kpd / cell_a atoms * (mult_of atoms kpd / cell_b atoms)
     * (mult_of atoms kpd / cell_c atoms)) = kpd.
Proof.
  pose proof radicand_pos as Hr.
  destruct Hvalid as (Ha & Hb & Hc & Hv & Hk).
  pose proof (cube_root_cube _ (Rlt_le _ _ Hr)) as Hm.
  fold (mult_of atoms kpd) in Hm.
  replace (mult_of atoms kpd / cell_a atoms * (mult_of atoms kpd / cell_b atoms)
           * (mult_of atoms kpd / cell_c atoms))
    with (mult_of atoms kpd * mult_of atoms kpd * mult_of atoms kpd
          / (cell_a atoms * cell_b atoms * cell_c atoms))
    by (field; repeat split; lra).
  rewrite Hm. field. repeat split; lra.
Qed.

(** With all three axes raised the grid lies above the target. *)
Lemma all_raised_density (e : bool) :
  let s := kgrid.step_of e in
  kpd <= get_volume atoms
         * IZR (count_of e true (frac_of atoms kpd s (cell_a atoms)))
         * IZR (count_of e true (frac_of atoms kpd s (cell_b atoms)))
         * IZR (count_of e true (frac_of atoms kpd s (cell_c atoms))).
Proof.
  intros s.
  pose proof mult_of_pos as Hm.
  rewrite <- quotients_product at 1.
  destruct Hvalid as (Ha & Hb & Hc & Hv & Hk).
  rewrite !Rmult_assoc. apply Rmult_le_compat_l; [lra |].
  rewrite <- !Rmult_assoc.
  assert (Hq : forall l, 0 < l ->
            0 <= mult_of atoms kpd / l
            /\ mult_of atoms kpd / l
               <= IZR (count_of e true (frac_of atoms kpd s l))).
  { intros l Hl. split.
    - left. now apply Rdiv_lt_0_compat.
    - pose proof (count_raised_gt e (frac_of atoms kpd s l)) as Hc'.
      pose proof (py_max_le_l (mult_of atoms kpd / l) s) as Hx.
      unfold frac_of in *. lra. }
  destruct (Hq _ Ha), (Hq _ Hb), (Hq _ Hc).
  apply mult3_le; assumption.
Qed.

End ValidInput.

(** ** Evaluation of the primitives at given numbers *)

Lemma ltb_lt (x y : R) : x < y -> py.ltb x y = true.
Proof. intros H. unfold py.ltb. destruct (Rlt_dec x y); [reflexivity | lra]. Qed.

Lemma ltb_ge (x y : R) : y <= x -> py.ltb x y = false.
Proof. intros H. unfold py.ltb. destruct (Rlt_dec x y); [lra | reflexivity]. Qed.

Lemma py_max_l (x y : R) : y <= x -> py.max x y = x.
Proof. intros H. unfold py.max. destruct (Rlt_dec x y); [lra | reflexivity]. Qed.

Lemma py_max_r (x y : R) : x < y -> py.max x y = y.
Proof. intros H. unfold py.max. destruct (Rlt_dec x y); [reflexivity | lra]. Qed.

Lemma floor_at (z : Z) (x : R) : IZR z <= x < IZR z + 1 -> np.floor x = IZR z.
Proof. intros H. unfold np.floor. now rewrite (Zfloor_eq z x). Qed.

Lemma ceil_at (z : Z) (x : R) : IZR z - 1 < x <= IZR z -> np.ceil x = IZR z.
Proof. intros H. unfold np.ceil. now rewrite (Zceil_eq z x). Qed.

Lemma isclose_within (a b : R) :
  0 <= b -> b - (np.atol + np.rtol * b) <= a <= b + (np.atol + np.rtol * b) ->
  np.isclose a b = true.
Proof.
  intros Hb H. unfold np.isclose. unfold np.atol, np.rtol in *.
  rewrite (Rabs_right b) by lra.
  destruct (Rle_dec _ _) as [_ | Hn]; [reflexivity |].
  exfalso. apply Hn. apply Rabs_le. lra.
Qed.

Lemma isclose_above (a b : R) :
  0 <= b -> b + (np.atol + np.rtol * b) < a -> np.isclose a b = false.
Proof.
  intros Hb H. unfold np.isclose. unfold np.atol, np.rtol in *.
  rewrite (Rabs_right b) by lra.
  destruct (Rle_dec _ _) as [Hc | _]; [| reflexivity].
  rewrite Rabs_right in Hc by lra. lra.
Qed.

Lemma isclose_below (a b : R) :
  0 <= b -> a < b - (np.atol + np.rtol * b) -> np.isclose a b = false.
Proof.
  intros Hb H. unfold np.isclose. unfold np.atol, np.rtol in *.
  rewrite (Rabs_right b) by lra.
  destruct (Rle_dec _ _) as [Hc | _]; [| reflexivity].
  rewrite Rabs_left in Hc by lra. lra.
Qed.

Lemma isclose_refl (a : R) : np.isclose a a = true.
Proof.
  unfold np.isclose. destruct (Rle_dec _ _) as [_ | Hn]; [reflexivity |].
  exfalso. apply Hn. replace (a - a) with 0 by ring. rewrite Rabs_R0.
  pose proof (Rabs_pos a). unfold np.atol, np.rtol. lra.
Qed.

Lemma insert_by_lt (key : nat -> R) (i j : nat) (l : list nat) :
  key i < key j -> np.insert_by key i (j :: l) = i :: j :: l.
Proof.
  intros H. cbn. destruct (Rlt_dec (key i) (key j)); [reflexivity | lra].
Qed.

Lemma insert_by_ge (key : nat -> R) (i j : nat) (l : list nat) :
  key j <= key i -> np.insert_by key i (j :: l) = j :: np.insert_by key i l.
Proof.
  intros H. cbn. destruct (Rlt_dec (key i) (key j)); [lra | reflexivity].
Qed.

(** The multiplier, given a number whose cube is the radicand. *)
Lemma mult_of_at (atoms : Atoms) (kpd m : R) :
  0 <= m ->
  kpd / get_volume atoms * cell_a atoms * cell_b atoms * cell_c atoms
  = m * m * m ->
  mult_of atoms kpd = m.
Proof.
  intros Hm E. unfold mult_of. rewrite E. now apply cube_root_of_cube.
Qed.

Ltac tol := unfold np.atol, np.rtol; lra.

Ltac small_int k :=
  first [ k 0%Z | k 1%Z | k 2%Z | k 3%Z | k 4%Z | k 5%Z | k 6%Z | k 7%Z
        | k 8%Z | k 9%Z ].

(** One step of the evaluation of a run at given numbers. *)
Ltac run_step :=
  match goal with
  | |- context [py.div ?x ?y] => rewrite (div_some x y) by lra
  | |- context [py.pow_third ?x] => rewrite (pow_third_some x) by lra
  | |- context [py.max ?x ?y] =>
      first [ rewrite (py_max_l x y) by lra | rewrite (py_max_r x y) by lra ]
  | |- context [kgrid.solve _ _ _ _] => unfold kgrid.solve
  | |- context [kgrid.density _ [_; _; _]] =>
      unfold kgrid.density; cbn [py.get nth]
  | |- context [np.argsort _] => unfold np.argsort
  | |- context [np.floor ?x] =>
      small_int ltac:(fun z => rewrite (floor_at z x) by lra)
  | |- context [np.ceil ?x] =>
      small_int ltac:(fun z => rewrite (ceil_at z x) by lra)
  | |- context [np.insert_by ?k ?i []] =>
      change (np.insert_by k i []) with [i]
  | |- context [np.insert_by ?k ?i (?j :: ?l)] =>
      first [ rewrite (insert_by_lt k i j l) by (cbn [py.get nth]; lra)
            | rewrite (insert_by_ge k i j l) by (cbn [py.get nth]; lra) ]
  | |- context [kgrid.batch _ _ _ _ [_; _; _] _ _] => unfold kgrid.batch
  | |- context [kgrid.loop _ _ _ _ [_; _; _] (_, _, _)] => cbn [kgrid.loop]
  | |- context [py.ltb ?x ?y] =>
      first [ rewrite (ltb_lt x y) by lra | rewrite (ltb_ge x y) by lra ]
  | |- context [np.isclose ?x ?y] =>
      first [ rewrite (isclose_within x y) by tol
            | rewrite (isclose_above x y) by tol
            | rewrite (isclose_below x y) by tol ]
  | |- context [Zfloor ?x] =>
      small_int ltac:(fun z => rewrite (Zfloor_eq z x) by lra)
  | |- context [Zceil ?x] =>
      small_int ltac:(fun z => rewrite (Zceil_eq z x) by lra)
  | |- context [py.geti _ _] => unfold py.geti; cbn [nth]
  | |- context [Rabs ?x] =>
      first [ rewrite (Rabs_right x) by lra | rewrite (Rabs_left x) by lra ]
  | |- context [py.int ?x] =>
      small_int ltac:(fun z =>
        replace (py.int x) with z
          by (replace x with (IZR z) by lra; now rewrite int_IZR))
  | _ => progress cbn [fold_left seq length map andb
                       py.bind py.mapM py.get py.geti py.set nth Nat.leb fst
                       kgrid.rank kgrid.bump kgrid.density kgrid.step_of]
  end.

(** ** Two runs on the 1 x 1 x 2 cell *)

Lemma slab_run_low :
  kgrid.get_kpts_from_kpd slab (343 / 64) false = Some [2; 2; 2]%Z.
Proof.
  unfold kgrid.get_kpts_from_kpd, kgrid.kpts_and_density.
  rewrite fractions_valid by (repeat split; cbn; lra).
  unfold frac_of. rewrite (mult_of_at _ _ (7 / 4)) by (cbn; lra).
  cbn [py.bind cell_a cell_b cell_c get_volume slab].
  repeat run_step. reflexivity.
Qed.

Lemma slab_run_high :
  kgrid.get_kpts_from_kpd slab (729 / 64) false = Some [3; 3; 1]%Z.
Proof.
  unfold kgrid.get_kpts_from_kpd, kgrid.kpts_and_density.
  rewrite fractions_valid by (repeat split; cbn; lra).
  unfold frac_of. rewrite (mult_of_at _ _ (9 / 4)) by (cbn; lra).
  cbn [py.bind cell_a cell_b cell_c get_volume slab].
  repeat run_step. reflexivity.
Qed.

(** ** Counts on valid input *)

Lemma frac_of_ge_step (atoms : Atoms) (kpd step l : R) :
  step <= frac_of atoms kpd step l.
Proof. apply py_max_le_r. Qed.

Lemma floor_quotient_ge_1 (e : bool) (f : R) :
  kgrid.step_of e <= f -> (1 <= Zfloor (f / kgrid.step_of e))%Z.
Proof.
  intros H. apply Zfloor_lub.
  pose proof (step_of_pos e) as Hs.
  apply (Rmult_le_reg_r (kgrid.step_of e)); [assumption |].
  replace (f / kgrid.step_of e * kgrid.step_of e) with f by (field; lra).
  lra.
Qed.

Lemma count_of_multiple (e b : bool) (f : R) :
  kgrid.step_of e <= f ->
  exists k : Z, (1 <= k)%Z /\ count_of e b f = (k * step_z e)%Z.
Proof.
  intros H. exists (Zfloor (f / kgrid.step_of e) + Z.b2z b)%Z.
  split; [| reflexivity].
  pose proof (floor_quotient_ge_1 e f H). destruct b; cbn [Z.b2z]; lia.
Qed.

(** The fractional count does not fall when the target density grows. *)
Lemma frac_of_mono (atoms : Atoms) (kpd1 kpd2 step l : R) :
  valid_input atoms kpd1 -> kpd1 <= kpd2 -> 0 < l ->
  frac_of atoms kpd1 step l <= frac_of atoms kpd2 step l.
Proof.
  intros H Hk Hl. pose proof (radicand_pos atoms kpd1 H) as Hr.
  destruct H as (Ha & Hb & Hc & Hv & Hk1).
  unfold frac_of. apply py_max_mono.
  apply Rmult_le_compat_r; [left; now apply Rinv_0_lt_compat |].
  unfold mult_of. apply cube_root_le; [lra |].
  do 3 (apply Rmult_le_compat_r; [lra |]).
  apply Rmult_le_compat_r; [left; now apply Rinv_0_lt_compat | assumption].
Qed.

Lemma count_of_mono (e b1 b2 : bool) (f1 f2 : R) :
  f1 <= f2 -> (count_of e b1 f1 <= count_of e b2 f2 + step_z e)%Z.
Proof.
  intros H. unfold count_of.
  pose proof (step_of_pos e) as Hs.
  assert (Hq : f1 / kgrid.step_of e <= f2 / kgrid.step_of e).
  { apply Rmult_le_compat_r; [left; now apply Rinv_0_lt_compat | assumption]. }
  apply Zfloor_le in Hq.
  assert (0 < step_z e)%Z by (destruct e; cbn; lia).
  destruct b1, b2; cbn [Z.b2z]; nia.
Qed.

Lemma Forall_3 {A : Type} (P : A -> Prop) (x y z : A) :
  P x -> P y -> P z -> Forall P [x; y; z].
Proof. intros; repeat constructor; assumption. Qed.

(** ** Properties of the grid solvers *)

(** C1: on every valid input (positive lengths, volume and target density,
    either step) [get_kpts_from_kpd] returns a grid [(nx, ny, nz)] with
    [V * nx * ny * nz >= kpd] in exact real arithmetic. *)
Theorem get_kpts_meets_density (atoms : Atoms) (kpd : R) (only_even : bool) :
  valid_input atoms kpd ->
  exists nx ny nz : Z,
    kgrid.get_kpts_from_kpd atoms kpd only_even = Some [nx; ny; nz]
    /\ kpd <= get_volume atoms * IZR nx * IZR ny * IZR nz.
Proof.
  intros H.
  destruct (get_kpts_valid atoms kpd H only_even)
    as (b0 & b1 & b2 & Heq & Hd).
  cbv zeta in Heq, Hd.
  eexists _, _, _. split; [exact Heq |].
  destruct Hd as [Hd | (-> & -> & ->)]; [exact Hd |].
  exact (all_raised_density atoms kpd H only_even).
Qed.

Lemma get_kpts_meets_density_witness :
  valid_input slab (343 / 64)
  /\ exists nx ny nz : Z,
       kgrid.get_kpts_from_kpd slab (343 / 64) true = Some [nx; ny; nz]
       /\ 343 / 64 <= get_volume slab * IZR nx * IZR ny * IZR nz.
Proof.
  assert (H : valid_input slab (343 / 64)) by (repeat split; cbn; lra).
  split; [exact H | exact (get_kpts_meets_density slab (343 / 64) true H)].
Defined.

(** C2: on every valid input each of the three counts returned by
    [get_kpts_from_kpd] is a positive multiple of [step]; with
    [only_even=True] every count is even and at least 2, with
    [only_even=False] every count is at least 1. *)
Theorem get_kpts_multiples_of_step (atoms : Atoms) (kpd : R)
    (only_even : bool) :
  valid_input atoms kpd ->
  exists nx ny nz : Z,
    kgrid.get_kpts_from_kpd atoms kpd only_even = Some [nx; ny; nz]
    /\ Forall (fun n => exists k : Z,
                 (1 <= k)%Z /\ n = (k * step_z only_even)%Z) [nx; ny; nz]
    /\ (only_even = true ->
        Forall (fun n => Z.even n = true /\ (2 <= n)%Z) [nx; ny; nz])
    /\ (only_even = false -> Forall (fun n => (1 <= n)%Z) [nx; ny; nz]).
Proof.
  intros H.
  destruct (get_kpts_valid atoms kpd H only_even)
    as (b0 & b1 & b2 & Heq & _).
  cbv zeta in Heq.
  eexists _, _, _. split; [exact Heq |].
  set (s := kgrid.step_of only_even).
  assert (Hm : forall b l, exists k : Z,
             (1 <= k)%Z
             /\ count_of only_even b (frac_of atoms kpd s l)
                = (k * step_z only_even)%Z).
  { intros b l. apply count_of_multiple, frac_of_ge_step. }
  split; [| split].
  - apply Forall_3; apply Hm.
  - intros E. apply Forall_3;
      match goal with
      | |- context [count_of _ ?b (frac_of _ _ _ ?l)] =>
          destruct (Hm b l) as (k & Hk & ->) end;
      rewrite E; cbn [step_z]; (split; [| lia]);
      rewrite Z.even_mul; apply orb_true_r.
  - intros E. apply Forall_3;
      match goal with
      | |- context [count_of _ ?b (frac_of _ _ _ ?l)] =>
          destruct (Hm b l) as (k & Hk & ->) end;
      rewrite E; cbn [step_z]; lia.
Qed.

Lemma get_kpts_multiples_of_step_witness :
  valid_input slab (343 / 64)
  /\ exists nx ny nz : Z,
       kgrid.get_kpts_from_kpd slab (343 / 64) true = Some [nx; ny; nz]
       /\ Forall (fun n => exists k : Z,
                    (1 <= k)%Z /\ n = (k * step_z true)%Z) [nx; ny; nz]
       /\ (true = true ->
           Forall (fun n => Z.even n = true /\ (2 <= n)%Z) [nx; ny; nz])
       /\ (true = false -> Forall (fun n => (1 <= n)%Z) [nx; ny; nz]).
Proof.
  assert (H : valid_input slab (343 / 64)) by (repeat split; cbn; lra).
  split; [exact H | exact (get_kpts_multiples_of_step slab (343 / 64) true H)].
Defined.

(** C4, as stated, fails: on the 1 x 1 x 2 cell with step 1 the grid for
    [kpd = 343/64] is [(2, 2, 2)] and the grid for the larger [kpd = 729/64]
    is [(3, 3, 1)]; the third count falls. *)
Lemma get_kpts_not_monotone :
  valid_input slab (343 / 64) /\ 343 / 64 <= 729 / 64
  /\ exists g1 g2 : list Z,
       kgrid.get_kpts_from_kpd slab (343 / 64) false = Some g1
       /\ kgrid.get_kpts_from_kpd slab (729 / 64) false = Some g2
       /\ ~ Forall2 Z.le g1 g2.
Proof.
  split; [repeat split; cbn; lra |]. split; [lra |].
  exists [2; 2; 2]%Z, [3; 3; 1]%Z.
  split; [exact slab_run_low |]. split; [exact slab_run_high |].
  intros H. inversion H as [| ? ? ? ? _ H1]; subst.
  inversion H1 as [| ? ? ? ? _ H2]; subst.
  inversion H2 as [| ? ? ? ? H3 _]; subst. lia.
Qed.

(** C4, amended: for a fixed valid geometry and step and target densities
    [kpd1 <= kpd2], every count returned for [kpd2] is at least the
    corresponding count returned for [kpd1] minus one step. *)
Theorem get_kpts_drops_at_most_one_step (atoms : Atoms) (kpd1 kpd2 : R)
    (only_even : bool) :
  valid_input atoms kpd1 -> kpd1 <= kpd2 ->
  exists g1 g2 : list Z,
    kgrid.get_kpts_from_kpd atoms kpd1 only_even = Some g1
    /\ kgrid.get_kpts_from_kpd atoms kpd2 only_even = Some g2
    /\ Forall2 (fun n1 n2 => (n1 <= n2 + step_z only_even)%Z) g1 g2.
Proof.
  intros H1 Hk.
  assert (H2 : valid_input atoms kpd2).
  { destruct H1 as (Ha & Hb & Hc & Hv & Hk1). repeat split; try assumption.
    lra. }
  destruct (get_kpts_valid atoms kpd1 H1 only_even)
    as (b0 & b1 & b2 & Heq1 & _).
  destruct (get_kpts_valid atoms kpd2 H2 only_even)
    as (c0 & c1 & c2 & Heq2 & _).
  cbv zeta in Heq1, Heq2.
  eexists _, _. split; [exact Heq1 |]. split; [exact Heq2 |].
  destruct H1 as (Ha & Hb & Hc & Hv & Hk1).
  repeat constructor; apply count_of_mono, frac_of_mono;
    try assumption; repeat split; assumption.
Qed.

Lemma get_kpts_drops_at_most_one_step_witness :
  valid_input slab (343 / 64) /\ 343 / 64 <= 729 / 64
  /\ exists g1 g2 : list Z,
       kgrid.get_kpts_from_kpd slab (343 / 64) false = Some g1
       /\ kgrid.get_kpts_from_kpd slab (729 / 64) false = Some g2
       /\ Forall2 (fun n1 n2 => (n1 <= n2 + step_z false)%Z) g1 g2.
Proof.
  assert (H : valid_input slab (343 / 64)) by (repeat split; cbn; lra).
  assert (Hk : 343 / 64 <= 729 / 64) by lra.
  split; [exact H |]. split; [exact Hk |].
  exact (get_kpts_drops_at_most_one_step slab (343 / 64) (729 / 64) false H Hk).
Defined.

Lemma div_by_zero (x : R) : py.div x 0 = None.
Proof.
  unfold py.div. destruct (Req_dec_T 0 0) as [_ | H]; [reflexivity | now elim H].
Qed.

Lemma cube_root_0 : py.cube_root 0 = 0.
Proof. unfold py.cube_root. destruct (Rle_dec 0 0); [reflexivity | lra]. Qed.

(** A zero target density on a positive cell is accepted. *)
Lemma get_kpts_zero_density (atoms : Atoms) (e : bool) :
  0 < cell_a atoms -> 0 < cell_b atoms -> 0 < cell_c atoms ->
  0 < get_volume atoms ->
  kgrid.get_kpts_from_kpd atoms 0 e = Some [step_z e; step_z e; step_z e].
Proof.
  intros Ha Hb Hc Hv.
  pose proof (step_of_pos e) as Hs.
  unfold kgrid.get_kpts_from_kpd, kgrid.kpts_and_density, kgrid.fractions,
    get_cell_lengths.
  cbn [py.get nth].
  rewrite div_some by lra. cbn [py.bind].
  replace (0 / get_volume atoms * cell_a atoms * cell_b atoms * cell_c atoms)
    with 0 by (unfold Rdiv; ring).
  rewrite pow_third_some by lra. rewrite cube_root_0.
  cbn [py.bind py.mapM].
  rewrite !div_some by lra. cbn [py.bind].
  replace (0 / cell_a atoms) with 0 by (unfold Rdiv; ring).
  replace (0 / cell_b atoms) with 0 by (unfold Rdiv; ring).
  replace (0 / cell_c atoms) with 0 by (unfold Rdiv; ring).
  rewrite (py_max_r 0 (kgrid.step_of e)) by lra.
  unfold kgrid.solve. cbn [map].
  replace (kgrid.step_of e / kgrid.step_of e) with (IZR 1) by (field; lra).
  rewrite (floor_at 1 (IZR 1)) by lra.
  set (o := np.argsort _). clearbody o.
  unfold kgrid.batch.
  assert (Hd : 0 <= kgrid.density (get_volume atoms)
                      [1 * kgrid.step_of e; 1 * kgrid.step_of e;
                       1 * kgrid.step_of e]).
  { unfold kgrid.density. cbn [py.get nth].
    repeat apply Rmult_le_pos; lra. }
  rewrite (ltb_ge _ 0 Hd). cbn [kgrid.loop]. rewrite (ltb_ge _ 0 Hd).
  cbn [andb map].
  replace (1 * kgrid.step_of e) with (IZR (step_z e))
    by (rewrite step_of_IZR; ring).
  now rewrite int_IZR.
Qed.

Lemma get_kpts_zero_volume (atoms : Atoms) (kpd : R) (e : bool) :
  get_volume atoms = 0 -> kgrid.get_kpts_from_kpd atoms kpd e = None.
Proof.
  intros H.
  unfold kgrid.get_kpts_from_kpd, kgrid.kpts_and_density, kgrid.fractions.
  rewrite H, div_by_zero. reflexivity.
Qed.

Lemma get_kpts_zero_length (atoms : Atoms) (kpd : R) (e : bool) :
  cell_a atoms = 0 \/ cell_b atoms = 0 \/ cell_c atoms = 0 ->
  kgrid.get_kpts_from_kpd atoms kpd e = None.
Proof.
  intros H.
  unfold kgrid.get_kpts_from_kpd, kgrid.kpts_and_density, kgrid.fractions,
    get_cell_lengths.
  cbn [py.get nth].
  destruct (py.div kpd (get_volume atoms)) as [min_kpts |]; [| reflexivity].
  cbn [py.bind].
  destruct (py.pow_third _) as [mult |]; [| reflexivity].
  cbn [py.bind py.mapM].
  destruct H as [-> | [-> | ->]]; rewrite div_by_zero; cbn [py.bind].
  - reflexivity.
  - destruct (py.div mult (cell_a atoms)); reflexivity.
  - destruct (py.div mult (cell_a atoms)); cbn [py.bind];
      [destruct (py.div mult (cell_b atoms)) |]; reflexivity.
Qed.

(** C3, as stated, fails: the target density 0 is not positive, and the call
    on the unit cube returns the grid [(1, 1, 1)] instead of failing. *)
Lemma zero_density_returns_grid :
  ~ valid_input unit_cube 0
  /\ kgrid.get_kpts_from_kpd unit_cube 0 false = Some [1; 1; 1]%Z.
Proof.
  split.
  - intros (_ & _ & _ & _ & H). lra.
  - apply (get_kpts_zero_density unit_cube false); cbn; lra.
Qed.

(** C3, amended: [get_kpts_from_kpd] has no validation step.  [step] is 1 or 2
    by construction from [only_even]; on a cell whose lengths are not
    negative, a zero volume or a zero cell length yields no grid; a zero
    target density on a positive cell is accepted and yields the grid
    [(step, step, step)]. *)
Theorem get_kpts_without_validation (atoms : Atoms) (kpd : R)
    (only_even : bool) :
  (kgrid.step_of only_even = 1 \/ kgrid.step_of only_even = 2)
  /\ (0 <= cell_a atoms /\ 0 <= cell_b atoms /\ 0 <= cell_c atoms ->
      get_volume atoms = 0 \/ cell_a atoms = 0 \/ cell_b atoms = 0
      \/ cell_c atoms = 0 ->
      kgrid.get_kpts_from_kpd atoms kpd only_even = None)
  /\ (0 < cell_a atoms /\ 0 < cell_b atoms /\ 0 < cell_c atoms
      /\ 0 < get_volume atoms ->
      kgrid.get_kpts_from_kpd atoms 0 only_even
      = Some [step_z only_even; step_z only_even; step_z only_even]).
Proof.
  split; [destruct only_even; cbn; auto |]. split.
  - intros _ [H | H].
    + now apply get_kpts_zero_volume.
    + now apply get_kpts_zero_length.
  - intros (Ha & Hb & Hc & Hv). now apply get_kpts_zero_density.
Qed.

Lemma get_kpts_without_validation_witness :
  kgrid.get_kpts_from_kpd (mkAtoms 1 1 1 0 [1; 1; 1]) 8 true = None
  /\ kgrid.get_kpts_from_kpd unit_cube 0 true = Some [2; 2; 2]%Z.
Proof.
  split.
  - apply (get_kpts_without_validation (mkAtoms 1 1 1 0 [1; 1; 1]) 8 true).
    + cbn. repeat split; lra.
    + left. reflexivity.
  - apply (get_kpts_without_validation unit_cube 0 true).
    cbn. repeat split; lra.
Defined.

(** On a cell with three equal lengths the three counts are equal: the
    floored count of the first axis, raised by one step when the floored grid
    is below the target. *)
Lemma equal_lengths_run (atoms : Atoms) (kpd : R) (e : bool) :
  valid_input atoms kpd ->
  cell_a atoms = cell_b atoms -> cell_b atoms = cell_c atoms ->
  let z := count_of e false
             (frac_of atoms kpd (kgrid.step_of e) (cell_a atoms)) in
  let z' := (z + step_z e)%Z in
  kgrid.get_kpts_from_kpd atoms kpd e
  = Some (if py.ltb (get_volume atoms * IZR z * IZR z * IZR z) kpd
          then [z'; z'; z'] else [z; z; z]).
Proof.
  intros H Hab Hbc z z'.
  unfold kgrid.get_kpts_from_kpd, kgrid.kpts_and_density.
  rewrite (fractions_valid _ _ H). cbn [py.bind].
  rewrite <- Hbc, <- Hab.
  pose proof (raised_count e false
                (frac_of atoms kpd (kgrid.step_of e) (cell_a atoms))) as Hz.
  cbn [raised] in Hz. fold z in Hz.
  set (s := kgrid.step_of e) in *.
  set (f := frac_of atoms kpd s (cell_a atoms)) in *.
  unfold kgrid.solve. cbn [map].
  set (d := np.ceil (f / s) * s - f).
  set (n := np.floor (f / s) * s) in *.
  assert (Hz' : n + s = IZR z').
  { unfold z', s. now rewrite plus_IZR, <- step_of_IZR, Hz. }
  clearbody n d.
  unfold np.argsort. cbn [length seq fold_left].
  change (np.insert_by (py.get [d; d; d]) 0 []) with [0%nat].
  rewrite insert_by_ge by (cbn [py.get nth]; lra).
  change (np.insert_by (py.get [d; d; d]) 1 []) with [1%nat].
  rewrite !insert_by_ge by (cbn [py.get nth]; lra).
  change (np.insert_by (py.get [d; d; d]) 2 []) with [2%nat].
  unfold kgrid.batch. cbn [kgrid.rank nth py.get].
  rewrite isclose_refl. cbn [andb].
  change (kgrid.density (get_volume atoms) [n; n; n])
    with (get_volume atoms * n * n * n).
  rewrite <- Hz.
  destruct (py.ltb (get_volume atoms * n * n * n) kpd) eqn:E.
  - cbn [kgrid.bump py.get py.set nth kgrid.loop Nat.leb].
    rewrite andb_false_r. cbn [map py.bind fst].
    rewrite Hz'. now rewrite int_IZR.
  - cbn [kgrid.loop].
    change (kgrid.density (get_volume atoms) [n; n; n])
      with (get_volume atoms * n * n * n).
    rewrite E. cbn [andb map py.bind fst].
    rewrite Hz. now rewrite int_IZR.
Qed.

(** C5: on a cubic cell ([a = b = c]) with step 1, if [mult / a] is an
    integer [k] then [get_kpts_from_kpd] returns equal counts
    [nx = ny = nz], namely [k]. *)
Theorem cubic_cell_equal_counts (atoms : Atoms) (kpd : R) (k : Z) :
  valid_input atoms kpd ->
  cell_a atoms = cell_b atoms -> cell_b atoms = cell_c atoms ->
  mult_of atoms kpd / cell_a atoms = IZR k ->
  kgrid.get_kpts_from_kpd atoms kpd false = Some [k; k; k].
Proof.
  intros H Hab Hbc Hk.
  pose proof (mult_of_pos atoms kpd H) as Hm.
  pose proof (quotients_product atoms kpd H) as Hq.
  rewrite <- Hbc, <- Hab, Hk in Hq.
  rewrite (equal_lengths_run atoms kpd false H Hab Hbc).
  destruct H as (Ha & Hb & Hc & Hv & Hkpd).
  assert (Hk1 : 1 <= IZR k).
  { apply IZR_le.
    assert (0 < k)%Z; [| lia].
    apply lt_IZR. rewrite <- Hk. now apply Rdiv_lt_0_compat. }
  unfold frac_of, count_of. rewrite Hk. cbn [kgrid.step_of Z.b2z step_z].
  rewrite (py_max_l (IZR k) 1) by lra.
  rewrite Rdiv_1_r, ZfloorZ.
  replace ((k + 0) * 1)%Z with k by lia.
  rewrite ltb_ge by lra. reflexivity.
Qed.

Lemma cubic_cell_equal_counts_witness :
  kgrid.get_kpts_from_kpd unit_cube 8 false = Some [2; 2; 2]%Z.
Proof.
  apply (cubic_cell_equal_counts unit_cube 8 2).
  - repeat split; cbn; lra.
  - reflexivity.
  - reflexivity.
  - rewrite (mult_of_at unit_cube 8 2) by (cbn; lra). cbn. lra.
Defined.

(** C6: when the floored grid is below the target and, of the axes ranked by
    [delta_ceil], only the two farthest-ranked fractional counts are
    approximately equal, the repair pass raises the nearest-ranked axis by
    [step], and raises the other two as well if the density is still below
    [kpd]; nothing else is raised. *)
Theorem far_pair_close_repair (atoms : Atoms) (kpd : R) (only_even : bool)
    (nkpt_frac : list R) :
  let step := kgrid.step_of only_even in
  let vol := get_volume atoms in
  let nkpt := floor_grid step nkpt_frac in
  let o := check_order_of step nkpt_frac in
  let f := fun r => py.get nkpt_frac (kgrid.rank o r) in
  let g1 := kgrid.bump step nkpt (kgrid.rank o 0) in
  let g3 := kgrid.bump step (kgrid.bump step g1 (kgrid.rank o 1))
              (kgrid.rank o 2) in
  kgrid.fractions atoms kpd step = Some nkpt_frac ->
  kgrid.density vol nkpt < kpd ->
  np.isclose (f 0%nat) (f 1%nat) && np.isclose (f 1%nat) (f 2%nat) = false ->
  np.isclose (f 0%nat) (f 1%nat) = false ->
  np.isclose (f 1%nat) (f 2%nat) = true ->
  kgrid.get_kpts_from_kpd atoms kpd only_even
  = Some (map py.int (if py.ltb (kgrid.density vol g1) kpd then g3 else g1)).
Proof.
  intros step vol nkpt o f g1 g3 Hfrac Hlow Hall Hnear Hfar.
  unfold kgrid.get_kpts_from_kpd, kgrid.kpts_and_density.
  fold step. rewrite Hfrac. cbn [py.bind].
  unfold kgrid.solve.
  change (map (fun f0 => np.floor (f0 / step) * step) nkpt_frac) with nkpt.
  change (np.argsort
            (map (fun f0 => np.ceil (f0 / step) * step - f0) nkpt_frac))
    with o.
  fold vol. unfold kgrid.batch.
  rewrite (ltb_lt _ _ Hlow).
  change (py.get nkpt_frac (kgrid.rank o 0)) with (f 0%nat).
  change (py.get nkpt_frac (kgrid.rank o 1)) with (f 1%nat).
  change (py.get nkpt_frac (kgrid.rank o 2)) with (f 2%nat).
  rewrite Hall, Hnear, Hfar.
  fold g1. fold g3.
  destruct (py.ltb (kgrid.density vol g1) kpd);
    cbn [kgrid.loop Nat.leb]; rewrite andb_false_r; reflexivity.
Qed.

Lemma far_pair_close_repair_witness :
  kgrid.get_kpts_from_kpd plate (3375 / 8) false = Some [3; 3; 4]%Z.
Proof.
  rewrite (far_pair_close_repair plate (3375 / 8) false
             [15 / 2 / 3; 15 / 2 / 3; 15 / 2 / 2]).
  - unfold floor_grid, check_order_of.
    cbn [get_volume plate]. repeat run_step. reflexivity.
  - rewrite fractions_valid by (repeat split; cbn; lra).
    unfold frac_of. rewrite (mult_of_at _ _ (15 / 2)) by (cbn; lra).
    cbn [cell_a cell_b cell_c plate]. repeat run_step. reflexivity.
  - unfold floor_grid. cbn [get_volume plate]. repeat run_step. lra.
  - unfold check_order_of. repeat run_step. reflexivity.
  - unfold check_order_of. repeat run_step. reflexivity.
  - unfold check_order_of. repeat run_step. reflexivity.
Defined.

(** ** The two-candidate variant *)

Lemma grid_density_pos (atoms : Atoms) (x y z : Z) :
  0 < get_volume atoms -> (1 <= x)%Z -> (1 <= y)%Z -> (1 <= z)%Z ->
  0 < grid_density atoms [x; y; z].
Proof.
  intros Hv Hx%IZR_le Hy%IZR_le Hz%IZR_le.
  unfold grid_density, py.geti. cbn [nth].
  repeat apply Rmult_lt_0_compat; lra.
Qed.

Lemma floor_max_ge_1 (q : R) : (1 <= Zfloor (py.max q 1))%Z.
Proof. apply Zfloor_lub. apply py_max_le_r. Qed.

Lemma ceil_pos_ge_1 (q : R) : 0 < q -> (1 <= Zceil q)%Z.
Proof.
  intros H. pose proof (Zceil_bound q) as [_ Hc].
  assert (0 < Zceil q)%Z by (apply lt_IZR; lra). lia.
Qed.

Lemma kgrid_legacy_valid (atoms : Atoms) (kpd : R) :
  valid_input atoms kpd ->
  kgrid.kgrid_from_cell_volume atoms kpd = Some (own_error_choice atoms kpd).
Proof.
  intros H. pose proof (radicand_pos atoms kpd H) as Hr.
  pose proof (mult_of_pos atoms kpd H) as Hm.
  destruct H as (Ha & Hb & Hc & Hv & Hk).
  unfold kgrid.kgrid_from_cell_volume, get_cell_lengths.
  cbn [py.get nth].
  rewrite div_some by lra. cbn [py.bind].
  rewrite pow_third_some by lra. fold (mult_of atoms kpd).
  cbn [py.bind py.mapM].
  rewrite !div_some by lra. cbn [py.bind].
  set (F := [_; _; _]).
  change (get_volume atoms * py.geti F 0 * py.geti F 1 * py.geti F 2)
    with (grid_density atoms F).
  assert (HF : 0 < grid_density atoms F)
    by (apply grid_density_pos; try assumption; apply floor_max_ge_1).
  rewrite div_some by lra. cbn [py.bind].
  set (C := [_; _; _]).
  change (get_volume atoms * py.geti C 0 * py.geti C 1 * py.geti C 2)
    with (grid_density atoms C).
  assert (HC : 0 < grid_density atoms C).
  { apply grid_density_pos; try assumption; apply ceil_pos_ge_1;
      now apply Rdiv_lt_0_compat. }
  rewrite div_some by lra. cbn [py.bind].
  unfold own_error_choice, py.ltb, error_vs_own.
  change (ceil_candidate atoms kpd) with C.
  change (floor_candidate atoms kpd) with F.
  now destruct (Rlt_dec _ _).
Qed.

Lemma job_control_legacy_same (atoms : Atoms) (kpd : R) :
  job_control.kgrid_from_cell_volume atoms kpd
  = kgrid.kgrid_from_cell_volume atoms kpd.
Proof. reflexivity. Qed.

Ltac candidates_at m :=
  unfold kgrid_from_cell_volume_spec, own_error_choice, error_vs_target,
    error_vs_own, grid_density, floor_candidate, ceil_candidate,
    get_cell_lengths;
  rewrite (mult_of_at _ _ m) by (cbn; lra);
  cbn [cell_a cell_b cell_c get_volume unit_cube map];
  repeat run_step.

(** C7, as stated, fails: on the unit cube with [kpd = 27/8] the candidates
    are [(1, 1, 1)] and [(2, 2, 2)]; the all-floor candidate has the lower
    relative error versus the target (19/27 against 37/27), and the code
    returns the all-ceil candidate. *)
Lemma legacy_choice_not_by_target_error :
  valid_input unit_cube (27 / 8)
  /\ kgrid.kgrid_from_cell_volume unit_cube (27 / 8) = Some [2; 2; 2]%Z
  /\ kgrid_from_cell_volume_spec unit_cube (27 / 8) = [1; 1; 1]%Z.
Proof.
  assert (H : valid_input unit_cube (27 / 8)) by (repeat split; cbn; lra).
  split; [exact H |]. split.
  - rewrite (kgrid_legacy_valid _ _ H). candidates_at (3 / 2).
    destruct (Rlt_dec _ _) as [L | L]; [reflexivity | exfalso; apply L; lra].
  - candidates_at (3 / 2).
    destruct (Rlt_dec _ _) as [L | L]; [exfalso; lra | reflexivity].
Qed.

(** C7, amended: on every valid input [kgrid_from_cell_volume] (in both
    files) forms the all-floor candidate (with a floor of 1 per axis) and the
    all-ceil candidate, takes for each the error [|kpd - d| / d] relative to
    the density [d] of the candidate itself, and returns the all-ceil
    candidate exactly when its error is strictly lower, otherwise the
    all-floor candidate. *)
Theorem legacy_choice_by_own_error (atoms : Atoms) (kpd : R) :
  valid_input atoms kpd ->
  let F := floor_candidate atoms kpd in
  let C := ceil_candidate atoms kpd in
  let choice :=
    if Rlt_dec (Rabs (kpd - grid_density atoms C) / grid_density atoms C)
         (Rabs (kpd - grid_density atoms F) / grid_density atoms F)
    then C else F in
  kgrid.kgrid_from_cell_volume atoms kpd = Some choice
  /\ job_control.kgrid_from_cell_volume atoms kpd = Some choice.
Proof.
  intros H F C choice.
  split; [| rewrite (job_control_legacy_same atoms kpd)];
    rewrite (kgrid_legacy_valid _ _ H); reflexivity.
Qed.

Lemma legacy_choice_by_own_error_witness :
  valid_input unit_cube (27 / 8)
  /\ kgrid.kgrid_from_cell_volume unit_cube (27 / 8)
     = Some (if Rlt_dec
                  (Rabs (27 / 8
                         - grid_density unit_cube
                             (ceil_candidate unit_cube (27 / 8)))
                   / grid_density unit_cube (ceil_candidate unit_cube (27 / 8)))
                  (Rabs (27 / 8
                         - grid_density unit_cube
                             (floor_candidate unit_cube (27 / 8)))
                   / grid_density unit_cube
                       (floor_candidate unit_cube (27 / 8)))
             then ceil_candidate unit_cube (27 / 8)
             else floor_candidate unit_cube (27 / 8)).
Proof.
  assert (H : valid_input unit_cube (27 / 8)) by (repeat split; cbn; lra).
  split; [exact H |].
  exact (proj1 (legacy_choice_by_own_error unit_cube (27 / 8) H)).
Defined.

(** C10: there is a valid input on which [kgrid_from_cell_volume] (in both
    files) returns a grid below the target: on the unit cube with
    [kpd = 1331/1000] it returns the all-floor candidate [(1, 1, 1)], whose
    density is 1. *)
Theorem legacy_grid_below_target :
  exists (atoms : Atoms) (kpd : R) (nx ny nz : Z),
    valid_input atoms kpd
    /\ kgrid.kgrid_from_cell_volume atoms kpd = Some [nx; ny; nz]
    /\ job_control.kgrid_from_cell_volume atoms kpd = Some [nx; ny; nz]
    /\ get_volume atoms * IZR nx * IZR ny * IZR nz < kpd.
Proof.
  exists unit_cube, (1331 / 1000), 1%Z, 1%Z, 1%Z.
  assert (H : valid_input unit_cube (1331 / 1000))
    by (repeat split; cbn; lra).
  assert (E : kgrid.kgrid_from_cell_volume unit_cube (1331 / 1000)
              = Some [1; 1; 1]%Z).
  { rewrite (kgrid_legacy_valid _ _ H). candidates_at (11 / 10).
    destruct (Rlt_dec _ _) as [L | L]; [exfalso; lra | reflexivity]. }
  split; [exact H |]. split; [exact E |].
  split; [rewrite job_control_legacy_same; exact E |].
  cbn. lra.
Qed.

(** ** The duplicated definitions *)

Lemma safe_batch_is_batch (vol kpd : R) (fr : list R) (o : list nat)
    (n : list R) (a : R) :
  kgrid.batch vol kpd 1 fr o n a = kgrid.safe_batch vol kpd fr o n a.
Proof. reflexivity. Qed.

Lemma safe_loop_is_loop (n : nat) (vol kpd : R) (o : list nat)
    (st : repair_state) :
  kgrid.loop n vol kpd 1 o st = kgrid.safe_loop n vol kpd o st.
Proof.
  revert st. induction n as [| n IH]; intros [[nkpt a] i]; [reflexivity |].
  cbn [kgrid.loop kgrid.safe_loop].
  destruct (py.ltb a kpd && (i <=? 2)%nat); [| reflexivity].
  apply IH.
Qed.

Lemma solve_step_1 (vol kpd : R) (fr : list R) :
  kgrid.solve vol kpd 1 fr
  = kgrid.safe_loop 3 vol kpd (np.argsort (map (fun f => np.ceil f - f) fr))
      (kgrid.safe_batch vol kpd fr
         (np.argsort (map (fun f => np.ceil f - f) fr))
         (map np.floor fr) (kgrid.density vol (map np.floor fr))).
Proof.
  unfold kgrid.solve.
  rewrite safe_loop_is_loop, safe_batch_is_batch.
  assert (E1 : map (fun f => np.floor (f / 1) * 1) fr = map np.floor fr).
  { apply map_ext. intros f. now rewrite Rdiv_1_r, Rmult_1_r. }
  assert (E2 : map (fun f => np.ceil (f / 1) * 1 - f) fr
               = map (fun f => np.ceil f - f) fr).
  { apply map_ext. intros f. now rewrite Rdiv_1_r, Rmult_1_r. }
  now rewrite E1, E2.
Qed.

(** C8: the duplicated grid solvers compute the same function: for every
    input [safe_kgrid_from_cell_volume] of [kgrid.py] and of [job_control.py]
    return the same grid, and [get_kpts_from_kpd] with [only_even=False]
    returns the grid of [safe_kgrid_from_cell_volume]. *)
Theorem duplicated_solvers_agree (atoms : Atoms) (kpd : R) :
  kgrid.safe_kgrid_from_cell_volume atoms kpd
  = job_control.safe_kgrid_from_cell_volume atoms kpd
  /\ kgrid.get_kpts_from_kpd atoms kpd false
     = kgrid.safe_kgrid_from_cell_volume atoms kpd.
Proof.
  split; [reflexivity |].
  unfold kgrid.get_kpts_from_kpd, kgrid.kpts_and_density, kgrid.fractions,
    kgrid.safe_kgrid_from_cell_volume.
  cbn [kgrid.step_of].
  destruct (py.div kpd (get_volume atoms)) as [ngrid |]; [| reflexivity].
  cbn [py.bind].
  destruct (py.pow_third _) as [mult |]; [| reflexivity].
  cbn [py.bind].
  destruct (py.mapM _ _) as [nkpt_frac |]; [| reflexivity].
  cbn [py.bind].
  rewrite solve_step_1.
  destruct (kgrid.safe_loop _ _ _ _ _) as [[nkpt a] i]. reflexivity.
Qed.


(** ** Further properties of [get_kpts_from_kpd] *)

Lemma count_of_bounds (e b : bool) (f : R) :
  f - kgrid.step_of e < IZR (count_of e b f) <= f + kgrid.step_of e.
Proof.
  unfold count_of. rewrite mult_IZR, plus_IZR, <- step_of_IZR.
  pose proof (step_of_pos e) as Hs.
  pose proof (Zfloor_bound (f / kgrid.step_of e)) as [Hlo Hhi].
  apply (Rmult_le_compat_r (kgrid.step_of e)) in Hlo; [| lra].
  apply (Rmult_lt_compat_r (kgrid.step_of e)) in Hhi; [| assumption].
  replace (f / kgrid.step_of e * kgrid.step_of e) with f in Hlo, Hhi
    by (field; lra).
  destruct b; cbn [Z.b2z]; lra.
Qed.

(** X1: on valid input every returned count lies within one step of the
    fractional count [max(mult / l, step)] of its axis. *)
Theorem get_kpts_within_one_step (atoms : Atoms) (kpd : R) (only_even : bool) :
  valid_input atoms kpd ->
  exists nx ny nz : Z,
    kgrid.get_kpts_from_kpd atoms kpd only_even = Some [nx; ny; nz]
    /\ Forall2
         (fun n l =>
            let f := frac_of atoms kpd (kgrid.step_of only_even) l in
            f - kgrid.step_of only_even < IZR n <= f + kgrid.step_of only_even)
         [nx; ny; nz] (get_cell_lengths atoms).
Proof.
  intros H.
  destruct (get_kpts_valid atoms kpd H only_even)
    as (b0 & b1 & b2 & Heq & _).
  cbv zeta in Heq. eexists _, _, _. split; [exact Heq |].
  unfold get_cell_lengths.
  repeat (constructor; [apply count_of_bounds |]). constructor.
Qed.

Lemma get_kpts_within_one_step_witness :
  exists nx ny nz : Z,
    kgrid.get_kpts_from_kpd slab (343 / 64) true = Some [nx; ny; nz]
    /\ Forall2
         (fun n l =>
            let f := frac_of slab (343 / 64) (kgrid.step_of true) l in
            f - kgrid.step_of true < IZR n <= f + kgrid.step_of true)
         [nx; ny; nz] (get_cell_lengths slab).
Proof.
  apply (get_kpts_within_one_step slab (343 / 64) true).
  repeat split; cbn; lra.
Defined.

Ltac ltb_facts :=
  repeat match goal with
         | E : py.ltb _ _ = true |- _ => apply ltb_true in E
         | E : py.ltb _ _ = false |- _ => apply ltb_false in E
         end.

Ltac rank_with m :=
  exists m; eexists; split; [lia |]; split; [reflexivity |];
  ltb_facts;
  split; [intros ?; first [reflexivity | exfalso; lra] |];
  split; [intros ?; first [lia | exfalso; lra] |];
  first [ right; reflexivity
        | left; match goal with H : _ <= _ |- _ => exact H end ].

Ltac rank_step :=
  match goal with
  | |- ranked_repair _ _ _ _ _ (if ?c then _ else _) =>
      let E := fresh "E" in
      destruct c eqn:E;
      rewrite ?andb_false_r, ?andb_true_r in E;
      try discriminate E
  | |- ranked_repair _ _ _ _ _ (kgrid.loop _ _ _ _ _ (if ?c then _ else _)) =>
      let E := fresh "E" in
      destruct c eqn:E
  | |- ranked_repair _ _ _ _ _ (kgrid.loop _ _ _ _ _ (_, _, _)) =>
      cbn [kgrid.loop kgrid.bump kgrid.rank nth py.get py.set Nat.leb]
  | |- ranked_repair _ _ _ _ _ (_, _, _) =>
      unfold ranked_repair;
      first [ rank_with 0%nat | rank_with 1%nat | rank_with 2%nat
            | rank_with 3%nat ]
  end.

(** The repair pass raises axes in the order of [check_order] only. *)
Lemma solve_ranked (vol kpd step f0 f1 f2 : R) :
  ranked_repair vol kpd step (floor_grid step [f0; f1; f2])
    (check_order_of step [f0; f1; f2])
    (kgrid.solve vol kpd step [f0; f1; f2]).
Proof.
  unfold kgrid.solve, check_order_of, floor_grid.
  set (o := np.argsort _).
  assert (Ho : In o [[0; 1; 2]; [0; 2; 1]; [1; 0; 2]; [1; 2; 0];
                     [2; 0; 1]; [2; 1; 0]]%nat) by apply argsort3.
  clearbody o.
  set (n0 := np.floor (f0 / step) * step).
  set (n1 := np.floor (f1 / step) * step).
  set (n2 := np.floor (f2 / step) * step).
  cbn [map]. fold n0 n1 n2. clearbody n0 n1 n2.
  unfold kgrid.batch.
  cbn [In] in Ho.
  decompose [or] Ho; try contradiction; subst o; clear Ho;
    cbn [kgrid.bump kgrid.rank nth py.get py.set];
    repeat rank_step.
Qed.

Lemma raise_prefix_raised (step n0 n1 n2 : R) (o : list nat) (m : nat) :
  In o [[0; 1; 2]; [0; 2; 1]; [1; 0; 2]; [1; 2; 0]; [2; 0; 1]; [2; 1; 0]]%nat ->
  (m <= 3)%nat ->
  raise_prefix step [n0; n1; n2] o m
  = [raised step (raised_by o m 0) n0; raised step (raised_by o m 1) n1;
     raised step (raised_by o m 2) n2]
  /\ ((1 <= m)%nat ->
      raised_by o m 0 || raised_by o m 1 || raised_by o m 2 = true)
  /\ (m = 3%nat ->
      raised_by o m 0 = true /\ raised_by o m 1 = true
      /\ raised_by o m 2 = true).
Proof.
  intros Ho Hm. cbn [In] in Ho.
  assert (Hc : (m = 0 \/ m = 1 \/ m = 2 \/ m = 3)%nat) by lia.
  decompose [or] Ho; try contradiction; subst o;
    decompose [or] Hc; subst m;
    (split; [reflexivity |]); (split; [intros ?; first [reflexivity | lia] |]);
    intros ?; first [discriminate | lia | repeat split].
Qed.

Lemma fracs_of_three (atoms : Atoms) (kpd step : R) :
  fracs_of atoms kpd step
  = [frac_of atoms kpd step (cell_a atoms);
     frac_of atoms kpd step (cell_b atoms);
     frac_of atoms kpd step (cell_c atoms)].
Proof. reflexivity. Qed.

Lemma check_order_perm (step : R) (f0 f1 f2 : R) :
  In (check_order_of step [f0; f1; f2])
     [[0; 1; 2]; [0; 2; 1]; [1; 0; 2]; [1; 2; 0]; [2; 0; 1]; [2; 1; 0]]%nat.
Proof. unfold check_order_of. cbn [map]. apply argsort3. Qed.

Section RankedRuns.

Variables (atoms : Atoms) (kpd : R) (e : bool).
Hypothesis Hvalid : valid_input atoms kpd.

Let s := kgrid.step_of e.
Let fr := fracs_of atoms kpd s.
Let o := check_order_of s fr.
Let F := floor_grid s fr.

(** The run in ranked form: the grid is the floored grid with the [m]
    best-ranked axes raised. *)
Lemma get_kpts_ranked :
  exists m : nat,
    (m <= 3)%nat
    /\ kgrid.get_kpts_from_kpd atoms kpd e
       = Some (map py.int (raise_prefix s F o m))
    /\ (kpd <= kgrid.density (get_volume atoms) F -> m = 0%nat)
    /\ (kgrid.density (get_volume atoms) F < kpd -> (1 <= m)%nat)
    /\ kpd <= kgrid.density (get_volume atoms) (raise_prefix s F o m).
Proof.
  unfold kgrid.get_kpts_from_kpd, kgrid.kpts_and_density.
  rewrite (fractions_valid atoms kpd Hvalid). cbn [py.bind].
  fold s. rewrite <- fracs_of_three. fold fr.
  pose proof (solve_ranked (get_volume atoms) kpd s
                (frac_of atoms kpd s (cell_a atoms))
                (frac_of atoms kpd s (cell_b atoms))
                (frac_of atoms kpd s (cell_c atoms))) as Hr.
  rewrite <- fracs_of_three in Hr. fold fr in Hr. fold o F in Hr.
  destruct Hr as (m & i & Hm & Heq & H0 & H1 & Hd).
  exists m. rewrite Heq. cbn [py.bind fst].
  repeat split; try assumption.
  destruct Hd as [Hd | ->]; [exact Hd |].
  pose proof (check_order_perm s (frac_of atoms kpd s (cell_a atoms))
                (frac_of atoms kpd s (cell_b atoms))
                (frac_of atoms kpd s (cell_c atoms))) as Ho.
  rewrite <- fracs_of_three in Ho. fold fr o in Ho.
  unfold F, floor_grid, fr. rewrite fracs_of_three. cbn [map].
  destruct (raise_prefix_raised s
              (np.floor (frac_of atoms kpd s (cell_a atoms) / s) * s)
              (np.floor (frac_of atoms kpd s (cell_b atoms) / s) * s)
              (np.floor (frac_of atoms kpd s (cell_c atoms) / s) * s)
              o 3 Ho (le_n 3)) as (Hg & _ & Hall).
  destruct (Hall eq_refl) as (E0 & E1 & E2). rewrite Hg, E0, E1, E2.
  unfold s. rewrite !raised_count.
  unfold kgrid.density. cbn [py.get nth].
  exact (all_raised_density atoms kpd Hvalid e).
Qed.

End RankedRuns.

Lemma count_of_raised (e : bool) (f : R) :
  count_of e true f = (count_of e false f + step_z e)%Z.
Proof. unfold count_of. cbn [Z.b2z]. lia. Qed.

Lemma step_z_pos (e : bool) : (0 < step_z e)%Z.
Proof. destruct e; cbn; lia. Qed.

(** The integers of a ranked grid. *)
Lemma raise_prefix_ints (e : bool) (f0 f1 f2 : R) (m : nat) :
  (m <= 3)%nat ->
  let s := kgrid.step_of e in
  let o := check_order_of s [f0; f1; f2] in
  map py.int (raise_prefix s (floor_grid s [f0; f1; f2]) o m)
  = [count_of e (raised_by o m 0) f0; count_of e (raised_by o m 1) f1;
     count_of e (raised_by o m 2) f2]
  /\ ((1 <= m)%nat ->
      raised_by o m 0 || raised_by o m 1 || raised_by o m 2 = true).
Proof.
  intros Hm s o.
  destruct (raise_prefix_raised s (np.floor (f0 / s) * s)
              (np.floor (f1 / s) * s) (np.floor (f2 / s) * s) o m
              (check_order_perm s f0 f1 f2) Hm) as (Hg & Hsome & _).
  split; [| exact Hsome].
  unfold floor_grid. cbn [map]. rewrite Hg. unfold s.
  rewrite !raised_count. cbn [map]. now rewrite !int_IZR.
Qed.

(** X2: on valid input [get_kpts_from_kpd] returns the floored grid exactly
    when the floored grid reaches the target density. *)
Theorem floor_grid_returned_iff (atoms : Atoms) (kpd : R) (only_even : bool) :
  valid_input atoms kpd ->
  let s := kgrid.step_of only_even in
  let F := floor_grid s (fracs_of atoms kpd s) in
  kgrid.get_kpts_from_kpd atoms kpd only_even = Some (map py.int F)
  <-> kpd <= kgrid.density (get_volume atoms) F.
Proof.
  intros H s F.
  destruct (get_kpts_ranked atoms kpd only_even H)
    as (m & Hm & Heq & H0 & H1 & _).
  fold s F in Heq, H0, H1.
  split.
  - intros Hret.
    destruct (Rle_dec kpd (kgrid.density (get_volume atoms) F))
      as [Hle | Hn]; [exact Hle | exfalso].
    assert (Hpos : (1 <= m)%nat) by (apply H1; lra).
    rewrite Heq in Hret.
    apply (f_equal (fun x => match x with Some l => l | None => [] end))
      in Hret.
    unfold F in Hret. rewrite fracs_of_three in Hret.
    destruct (raise_prefix_ints only_even
                (frac_of atoms kpd s (cell_a atoms))
                (frac_of atoms kpd s (cell_b atoms))
                (frac_of atoms kpd s (cell_c atoms)) m Hm) as (Hr & Hsome).
    destruct (raise_prefix_ints only_even
                (frac_of atoms kpd s (cell_a atoms))
                (frac_of atoms kpd s (cell_b atoms))
                (frac_of atoms kpd s (cell_c atoms)) 0 (Nat.le_0_l 3))
      as (Hf & _).
    cbv zeta in Hr, Hf, Hsome. fold s in Hr, Hf, Hsome.
    change (raise_prefix s ?g ?o 0) with g in Hf.
    rewrite Hr, Hf in Hret. specialize (Hsome Hpos).
    change (raised_by ?o 0 ?i) with false in Hret.
    pose proof (step_z_pos only_even).
    injection Hret as E0 E1 E2.
    destruct (raised_by _ m 0); [rewrite count_of_raised in E0; lia |].
    destruct (raised_by _ m 1); [rewrite count_of_raised in E1; lia |].
    destruct (raised_by _ m 2); [rewrite count_of_raised in E2; lia |].
    discriminate Hsome.
  - intros Hle. rewrite Heq, (H0 Hle). reflexivity.
Qed.

Lemma floor_grid_returned_iff_witness :
  kgrid.get_kpts_from_kpd slab 8 false
  = Some (map py.int (floor_grid (kgrid.step_of false)
                        (fracs_of slab 8 (kgrid.step_of false))))
  <-> 8 <= kgrid.density (get_volume slab)
             (floor_grid (kgrid.step_of false)
                (fracs_of slab 8 (kgrid.step_of false))).
Proof.
  apply (floor_grid_returned_iff slab 8 false).
  repeat split; cbn; lra.
Defined.

(** X3: on valid input the axes raised by the repair pass are the [m]
    best-ranked axes of [check_order] (ascending [delta_ceil]) for some
    [m <= 3]: an axis is raised only together with every axis ranked before
    it, each by exactly one step. *)
Theorem get_kpts_raises_in_rank_order (atoms : Atoms) (kpd : R)
    (only_even : bool) :
  valid_input atoms kpd ->
  let s := kgrid.step_of only_even in
  let fr := fracs_of atoms kpd s in
  exists m : nat,
    (m <= 3)%nat
    /\ kgrid.get_kpts_from_kpd atoms kpd only_even
       = Some (map py.int
                 (raise_prefix s (floor_grid s fr) (check_order_of s fr) m)).
Proof.
  intros H s fr.
  destruct (get_kpts_ranked atoms kpd only_even H) as (m & Hm & Heq & _).
  exists m. split; [exact Hm | exact Heq].
Qed.

Lemma get_kpts_raises_in_rank_order_witness :
  exists m : nat,
    (m <= 3)%nat
    /\ kgrid.get_kpts_from_kpd slab (729 / 64) false
       = Some (map py.int
                 (raise_prefix (kgrid.step_of false)
                    (floor_grid (kgrid.step_of false)
                       (fracs_of slab (729 / 64) (kgrid.step_of false)))
                    (check_order_of (kgrid.step_of false)
                       (fracs_of slab (729 / 64) (kgrid.step_of false)))
                    m)).
Proof.
  apply (get_kpts_raises_in_rank_order slab (729 / 64) false).
  repeat split; cbn; lra.
Defined.

(** *** The repair pass without ties *)

Lemma raise_prefix_S (step : R) (o : list nat) (g : list R) (i : nat) :
  (i < length o)%nat ->
  raise_prefix step g o (S i)
  = kgrid.bump step (raise_prefix step g o i) (kgrid.rank o i).
Proof.
  unfold raise_prefix, kgrid.rank. revert g i.
  induction o as [| a o IH]; intros g [| i] Hi; cbn [length] in Hi;
    try lia.
  - reflexivity.
  - cbn [firstn fold_left nth]. apply IH. lia.
Qed.

(** From a state with the [i] best-ranked axes raised, all of them below the
    target, the loop stops at the shortest prefix that reaches the target. *)
Lemma loop_shortest (n : nat) (vol kpd step : R) (o : list nat)
    (g : list R) (i : nat) :
  length o = 3%nat -> (i <= 3)%nat -> (3 - i <= n)%nat ->
  (forall m', (m' < i)%nat ->
      kgrid.density vol (raise_prefix step g o m') < kpd) ->
  exists m i' : nat,
    (i <= m <= 3)%nat
    /\ kgrid.loop n vol kpd step o
         (raise_prefix step g o i,
          kgrid.density vol (raise_prefix step g o i), i)
       = (raise_prefix step g o m,
          kgrid.density vol (raise_prefix step g o m), i')
    /\ (kpd <= kgrid.density vol (raise_prefix step g o m) \/ m = 3%nat)
    /\ (forall m', (m' < m)%nat ->
          kgrid.density vol (raise_prefix step g o m') < kpd).
Proof.
  intros Ho. revert i. induction n as [| n IH]; intros i Hi Hn Hbelow.
  - exists i, i. assert (i = 3%nat) by lia.
    repeat split; try lia; auto.
  - cbn [kgrid.loop].
    destruct (py.ltb (kgrid.density vol (raise_prefix step g o i)) kpd)
      eqn:E.
    + destruct (i <=? 2)%nat eqn:Ei; cbn [andb].
      * apply Nat.leb_le in Ei.
        rewrite <- raise_prefix_S by lia.
        destruct (IH (S i)) as (m & i' & Hm & Heq & Hd & Hb); try lia.
        { intros m' Hm'. destruct (Nat.eq_dec m' i) as [-> | Hne].
          - now apply ltb_true.
          - apply Hbelow. lia. }
        exists m, i'. repeat split; try lia; assumption.
      * apply Nat.leb_gt in Ei. exists i, i.
        repeat split; try lia; auto.
    + cbn [andb]. exists i, i.
      repeat split; try lia; auto. left. now apply ltb_false.
Qed.

Lemma batch_untied (vol kpd step : R) (fr : list R) (o : list nat)
    (g : list R) (a : R) :
  np.isclose (py.get fr (kgrid.rank o 0)) (py.get fr (kgrid.rank o 1)) = false ->
  np.isclose (py.get fr (kgrid.rank o 1)) (py.get fr (kgrid.rank o 2)) = false ->
  kgrid.batch vol kpd step fr o g a = (g, a, 0%nat).
Proof.
  intros H01 H12. unfold kgrid.batch. rewrite H01, H12. cbn [andb].
  now destruct (py.ltb a kpd).
Qed.

Lemma check_order_length (step f0 f1 f2 : R) :
  length (check_order_of step [f0; f1; f2]) = 3%nat.
Proof.
  pose proof (check_order_perm step f0 f1 f2) as H. cbn [In] in H.
  decompose [or] H; try contradiction;
    match goal with E : _ = check_order_of _ _ |- _ => now rewrite <- E end.
Qed.

(** X4: on valid input, when no two neighbours in the ranking have
    approximately equal fractional counts, the repair pass raises the
    best-ranked axes one at a time and stops at the first grid that reaches
    the target: the returned grid has the [m] best-ranked axes raised, every
    shorter prefix stays below the target, and the grid reaches the target
    unless all three axes are raised. *)
Theorem untied_repair_is_shortest (atoms : Atoms) (kpd : R)
    (only_even : bool) :
  valid_input atoms kpd ->
  let s := kgrid.step_of only_even in
  let fr := fracs_of atoms kpd s in
  let o := check_order_of s fr in
  let F := floor_grid s fr in
  let vol := get_volume atoms in
  np.isclose (py.get fr (kgrid.rank o 0)) (py.get fr (kgrid.rank o 1)) = false ->
  np.isclose (py.get fr (kgrid.rank o 1)) (py.get fr (kgrid.rank o 2)) = false ->
  exists m : nat,
    (m <= 3)%nat
    /\ kgrid.get_kpts_from_kpd atoms kpd only_even
       = Some (map py.int (raise_prefix s F o m))
    /\ (kpd <= kgrid.density vol (raise_prefix s F o m) \/ m = 3%nat)
    /\ (forall m', (m' < m)%nat ->
          kgrid.density vol (raise_prefix s F o m') < kpd).
Proof.
  intros H s fr o F vol H01 H12.
  unfold kgrid.get_kpts_from_kpd, kgrid.kpts_and_density.
  rewrite (fractions_valid atoms kpd H). cbn [py.bind].
  fold s. rewrite <- fracs_of_three. fold fr.
  unfold kgrid.solve.
  change (map (fun f => np.floor (f / s) * s) fr) with F.
  change (np.argsort (map (fun f => np.ceil (f / s) * s - f) fr)) with o.
  fold vol. rewrite (batch_untied _ _ _ _ _ _ _ H01 H12).
  destruct (loop_shortest 3 vol kpd s o F 0) as (m & i' & Hm & Heq & Hd & Hb).
  - unfold o, fr. rewrite fracs_of_three. apply check_order_length.
  - lia.
  - lia.
  - intros m' Hm'. lia.
  - change (raise_prefix s F o 0) with F in Heq. rewrite Heq.
    exists m. cbn [py.bind fst]. repeat split; try lia; assumption.
Qed.

Lemma untied_repair_is_shortest_witness :
  exists m : nat,
    (m <= 3)%nat
    /\ kgrid.get_kpts_from_kpd stair (1331 / 8) false
       = Some (map py.int
                 (raise_prefix 1
                    (floor_grid 1 (fracs_of stair (1331 / 8) 1))
                    (check_order_of 1 (fracs_of stair (1331 / 8) 1)) m))
    /\ (1331 / 8
        <= kgrid.density 8
             (raise_prefix 1 (floor_grid 1 (fracs_of stair (1331 / 8) 1))
                (check_order_of 1 (fracs_of stair (1331 / 8) 1)) m)
        \/ m = 3%nat)
    /\ (forall m', (m' < m)%nat ->
          kgrid.density 8
            (raise_prefix 1 (floor_grid 1 (fracs_of stair (1331 / 8) 1))
               (check_order_of 1 (fracs_of stair (1331 / 8) 1)) m')
          < 1331 / 8).
Proof.
  apply (untied_repair_is_shortest stair (1331 / 8) false).
  - repeat split; cbn; lra.
  - cbn [kgrid.step_of]. unfold fracs_of, frac_of, check_order_of.
    rewrite (mult_of_at stair (1331 / 8) (11 / 2)) by (cbn; lra).
    cbn [get_cell_lengths cell_a cell_b cell_c stair map].
    repeat run_step. reflexivity.
  - cbn [kgrid.step_of]. unfold fracs_of, frac_of, check_order_of.
    rewrite (mult_of_at stair (1331 / 8) (11 / 2)) by (cbn; lra).
    cbn [get_cell_lengths cell_a cell_b cell_c stair map].
    repeat run_step. reflexivity.
Defined.

(** X16: on valid input, when no quotient [mult / l] exceeds the step (a
    sparse target), [get_kpts_from_kpd] returns the smallest grid
    [(step, step, step)]. *)
Theorem sparse_target_minimal_grid (atoms : Atoms) (kpd : R)
    (only_even : bool) :
  valid_input atoms kpd ->
  mult_of atoms kpd / cell_a atoms <= kgrid.step_of only_even ->
  mult_of atoms kpd / cell_b atoms <= kgrid.step_of only_even ->
  mult_of atoms kpd / cell_c atoms <= kgrid.step_of only_even ->
  kgrid.get_kpts_from_kpd atoms kpd only_even
  = Some [step_z only_even; step_z only_even; step_z only_even].
Proof.
  intros H Ha Hb Hc.
  pose proof (step_of_pos only_even) as Hs.
  pose proof (mult_of_pos atoms kpd H) as Hm.
  pose proof H as (La & Lb & Lc & Hv & Hk).
  assert (Hf : forall l, mult_of atoms kpd / l <= kgrid.step_of only_even ->
            frac_of atoms kpd (kgrid.step_of only_even) l
            = kgrid.step_of only_even).
  { intros l Hl. unfold frac_of, py.max. destruct (Rlt_dec _ _); lra. }
  assert (Hone : Zfloor (kgrid.step_of only_even / kgrid.step_of only_even)
                 = 1%Z).
  { replace (kgrid.step_of only_even / kgrid.step_of only_even)
      with (IZR 1) by (field; lra).
    apply ZfloorZ. }
  destruct (get_kpts_ranked atoms kpd only_even H)
    as (m & Hm' & Heq & H0 & _).
  assert (Hfit : kpd <= kgrid.density (get_volume atoms)
                          (floor_grid (kgrid.step_of only_even)
                             (fracs_of atoms kpd (kgrid.step_of only_even)))).
  { rewrite fracs_of_three. unfold floor_grid, kgrid.density, np.floor.
    cbn [map py.get nth]. rewrite !Hf, Hone by assumption.
    rewrite <- (quotients_product atoms kpd H) at 1.
    rewrite !Rmult_1_l, !Rmult_assoc.
    apply Rmult_le_compat_l; [lra |]. rewrite <- !Rmult_assoc.
    apply mult3_le; try assumption; left; now apply Rdiv_lt_0_compat. }
  rewrite Heq, (H0 Hfit), fracs_of_three.
  destruct (raise_prefix_ints only_even
              (frac_of atoms kpd (kgrid.step_of only_even) (cell_a atoms))
              (frac_of atoms kpd (kgrid.step_of only_even) (cell_b atoms))
              (frac_of atoms kpd (kgrid.step_of only_even) (cell_c atoms))
              0 (Nat.le_0_l 3)) as (Hr & _).
  cbv zeta in Hr. rewrite Hr.
  change (raised_by ?o 0 ?i) with false.
  unfold count_of. rewrite !Hf, Hone by assumption. cbn [Z.b2z].
  replace ((1 + 0) * step_z only_even)%Z with (step_z only_even) by lia.
  reflexivity.
Qed.

Lemma sparse_target_minimal_grid_witness :
  kgrid.get_kpts_from_kpd slab (1 / 2) true = Some [2; 2; 2]%Z.
Proof.
  apply (sparse_target_minimal_grid slab (1 / 2) true).
  - repeat split; cbn; lra.
  - unfold mult_of. cbn [cell_a cell_b cell_c get_volume slab kgrid.step_of].
    assert (py.cube_root (1 / 2 / 2 * 1 * 1 * 2) <= py.cube_root (1 * 1 * 1))
      by (apply cube_root_le; lra).
    rewrite cube_root_of_cube in H by lra. lra.
  - unfold mult_of. cbn [cell_a cell_b cell_c get_volume slab kgrid.step_of].
    assert (py.cube_root (1 / 2 / 2 * 1 * 1 * 2) <= py.cube_root (1 * 1 * 1))
      by (apply cube_root_le; lra).
    rewrite cube_root_of_cube in H by lra. lra.
  - unfold mult_of. cbn [cell_a cell_b cell_c get_volume slab kgrid.step_of].
    assert (py.cube_root (1 / 2 / 2 * 1 * 1 * 2) <= py.cube_root (1 * 1 * 1))
      by (apply cube_root_le; lra).
    rewrite cube_root_of_cube in H by lra.
    assert (0 < py.cube_root (1 / 2 / 2 * 1 * 1 * 2))
      by (apply cube_root_pos; lra).
    lra.
Defined.

(** *** Scaling the volume and the target density together *)

Lemma ltb_scale (c x y : R) : 0 < c -> py.ltb (c * x) (c * y) = py.ltb x y.
Proof.
  intros Hc. unfold py.ltb.
  destruct (Rlt_dec x y) as [H | H], (Rlt_dec (c * x) (c * y)) as [H' | H'];
    try reflexivity; exfalso.
  - apply H'. now apply Rmult_lt_compat_l.
  - apply H. now apply (Rmult_lt_reg_l c).
Qed.

Lemma density_scale (c vol : R) (g : list R) :
  kgrid.density (c * vol) g = c * kgrid.density vol g.
Proof. unfold kgrid.density. ring. Qed.

Lemma batch_scale (c vol kpd step : R) (fr : list R) (o : list nat)
    (g : list R) (a : R) :
  0 < c ->
  kgrid.batch (c * vol) (c * kpd) step fr o g (c * a)
  = scale_state c (kgrid.batch vol kpd step fr o g a).
Proof.
  intros Hc. unfold kgrid.batch.
  rewrite !density_scale, !ltb_scale by assumption.
  destruct (py.ltb a kpd); [| reflexivity].
  destruct (np.isclose _ _ && np.isclose _ _); [reflexivity |].
  destruct (np.isclose _ _); [reflexivity |].
  destruct (np.isclose _ _); [| reflexivity].
  destruct (py.ltb _ kpd); reflexivity.
Qed.

Lemma loop_scale (n : nat) (c vol kpd step : R) (o : list nat)
    (st : repair_state) :
  0 < c ->
  kgrid.loop n (c * vol) (c * kpd) step o (scale_state c st)
  = scale_state c (kgrid.loop n vol kpd step o st).
Proof.
  intros Hc. revert st.
  induction n as [| n IH]; intros [[g a] i]; [reflexivity |].
  cbn [kgrid.loop scale_state].
  rewrite ltb_scale by assumption.
  destruct (py.ltb a kpd && (i <=? 2)%nat); [| reflexivity].
  rewrite density_scale. apply (IH (_, _, _)).
Qed.

Lemma solve_scale (c vol kpd step : R) (fr : list R) :
  0 < c ->
  kgrid.solve (c * vol) (c * kpd) step fr
  = scale_state c (kgrid.solve vol kpd step fr).
Proof.
  intros Hc. unfold kgrid.solve.
  rewrite density_scale, batch_scale by assumption.
  now apply loop_scale.
Qed.

(** X6: the grid depends on the volume and the target density only through
    their ratio: scaling both by the same positive factor changes nothing in
    what [get_kpts_from_kpd] returns, on any input. *)
Theorem get_kpts_scale_invariant (atoms : Atoms) (kpd c : R)
    (only_even : bool) :
  0 < c ->
  kgrid.get_kpts_from_kpd (with_volume atoms (c * get_volume atoms))
    (c * kpd) only_even
  = kgrid.get_kpts_from_kpd atoms kpd only_even.
Proof.
  intros Hc.
  unfold kgrid.get_kpts_from_kpd, kgrid.kpts_and_density, kgrid.fractions,
    with_volume, get_cell_lengths.
  cbn [get_volume cell_a cell_b cell_c py.get nth].
  unfold py.div at 1 3.
  destruct (Req_dec_T (get_volume atoms) 0) as [Hv | Hv].
  - destruct (Req_dec_T (c * get_volume atoms) 0) as [_ | Hn];
      [reflexivity |]. exfalso. apply Hn. rewrite Hv. ring.
  - destruct (Req_dec_T (c * get_volume atoms) 0) as [Hz | _].
    { exfalso. apply Rmult_integral in Hz. destruct Hz; [lra | auto]. }
    cbn [py.bind].
    replace (c * kpd / (c * get_volume atoms)) with (kpd / get_volume atoms)
      by (field; split; [assumption | lra]).
    destruct (py.pow_third _) as [mult |]; [| reflexivity].
    cbn [py.bind].
    destruct (py.mapM _ _) as [fr |]; [| reflexivity].
    cbn [py.bind].
    rewrite solve_scale by assumption.
    destruct (kgrid.solve _ _ _ _) as [[g a] i]. reflexivity.
Qed.

Lemma get_kpts_scale_invariant_witness :
  kgrid.get_kpts_from_kpd (with_volume slab (3 * get_volume slab))
    (3 * (343 / 64)) false
  = kgrid.get_kpts_from_kpd slab (343 / 64) false.
Proof.
  apply (get_kpts_scale_invariant slab (343 / 64) 3 false). lra.
Defined.

(** ** Further properties of the other solvers *)

Lemma safe_is_get_kpts (atoms : Atoms) (kpd : R) :
  job_control.safe_kgrid_from_cell_volume atoms kpd
  = kgrid.get_kpts_from_kpd atoms kpd false
  /\ kgrid.safe_kgrid_from_cell_volume atoms kpd
     = kgrid.get_kpts_from_kpd atoms kpd false.
Proof.
  assert (E : kgrid.safe_kgrid_from_cell_volume atoms kpd
              = kgrid.get_kpts_from_kpd atoms kpd false).
  { unfold kgrid.get_kpts_from_kpd, kgrid.kpts_and_density, kgrid.fractions,
      kgrid.safe_kgrid_from_cell_volume.
    cbn [kgrid.step_of].
    destruct (py.div kpd (get_volume atoms)) as [ngrid |]; [| reflexivity].
    cbn [py.bind].
    destruct (py.pow_third _) as [mult |]; [| reflexivity].
    cbn [py.bind].
    destruct (py.mapM _ _) as [nkpt_frac |]; [| reflexivity].
    cbn [py.bind].
    rewrite solve_step_1.
    destruct (kgrid.safe_loop _ _ _ _ _) as [[nkpt a] i]. reflexivity. }
  split; [| exact E]. rewrite <- E. reflexivity.
Qed.

(** X7: in exact real arithmetic, on valid input
    [safe_kgrid_from_cell_volume], in [job_control.py] and in [kgrid.py],
    returns a grid of counts that are all at least 1 and whose density
    [V * nx * ny * nz] reaches the target. *)
Theorem safe_kgrid_meets_density (atoms : Atoms) (kpd : R) :
  valid_input atoms kpd ->
  exists nx ny nz : Z,
    job_control.safe_kgrid_from_cell_volume atoms kpd = Some [nx; ny; nz]
    /\ kgrid.safe_kgrid_from_cell_volume atoms kpd = Some [nx; ny; nz]
    /\ (1 <= nx /\ 1 <= ny /\ 1 <= nz)%Z
    /\ kpd <= get_volume atoms * IZR nx * IZR ny * IZR nz.
Proof.
  intros H.
  destruct (safe_is_get_kpts atoms kpd) as (-> & ->).
  destruct (get_kpts_valid atoms kpd H false) as (b0 & b1 & b2 & Heq & Hd).
  cbv zeta in Heq, Hd.
  eexists _, _, _. split; [exact Heq |]. split; [exact Heq |]. split.
  - repeat split;
      match goal with
      | |- (1 <= count_of false ?b ?f)%Z =>
          destruct (count_of_multiple false b f (frac_of_ge_step _ _ _ _))
            as (k & Hk & ->)
      end; cbn [step_z]; lia.
  - destruct Hd as [Hd | (-> & -> & ->)]; [exact Hd |].
    exact (all_raised_density atoms kpd H false).
Qed.

Lemma safe_kgrid_meets_density_witness :
  exists nx ny nz : Z,
    job_control.safe_kgrid_from_cell_volume slab (343 / 64) = Some [nx; ny; nz]
    /\ kgrid.safe_kgrid_from_cell_volume slab (343 / 64) = Some [nx; ny; nz]
    /\ (1 <= nx /\ 1 <= ny /\ 1 <= nz)%Z
    /\ 343 / 64 <= get_volume slab * IZR nx * IZR ny * IZR nz.
Proof.
  apply (safe_kgrid_meets_density slab (343 / 64)).
  repeat split; cbn; lra.
Defined.

(** *** The two candidates of [kgrid_from_cell_volume] *)

Lemma floor_le_ceil_count (q : R) :
  0 < q -> (1 <= Zfloor (py.max q 1) <= Zceil q)%Z.
Proof.
  intros Hq. split; [apply floor_max_ge_1 |].
  pose proof (ceil_pos_ge_1 q Hq) as Hc.
  unfold py.max. destruct (Rlt_dec q 1) as [H | H].
  - rewrite ZfloorZ. exact Hc.
  - apply le_IZR. pose proof (Zfloor_ceil_bound q). lra.
Qed.

Lemma div_lt_cross (a b c d : R) :
  0 < b -> 0 < d -> (a / b < c / d <-> a * d < c * b).
Proof.
  intros Hb Hd.
  assert (Hbd : 0 < b * d) by now apply Rmult_lt_0_compat.
  replace (a * d) with (a / b * (b * d)) by (field; lra).
  replace (c * b) with (c / d * (b * d)) by (field; lra).
  split; intros H.
  - now apply Rmult_lt_compat_r.
  - now apply (Rmult_lt_reg_r (b * d)).
Qed.

Section Candidates.

Variables (atoms : Atoms) (kpd : R).
Hypothesis Hvalid : valid_input atoms kpd.

Let F := floor_candidate atoms kpd.
Let C := ceil_candidate atoms kpd.
Let dF := grid_density atoms F.
Let dC := grid_density atoms C.

(** The all-floor candidate is positive and never denser than the all-ceil
    candidate, and the all-ceil candidate reaches the target. *)
Lemma candidate_densities : 0 < dF /\ dF <= dC /\ kpd <= dC.
Proof.
  pose proof (mult_of_pos atoms kpd Hvalid) as Hm.
  pose proof (quotients_product atoms kpd Hvalid) as Hq.
  destruct Hvalid as (Ha & Hb & Hc & Hv & Hk).
  assert (Hl : forall l, 0 < l ->
            0 < mult_of atoms kpd / l
            /\ 1 <= IZR (Zfloor (py.max (mult_of atoms kpd / l) 1))
            /\ IZR (Zfloor (py.max (mult_of atoms kpd / l) 1))
               <= IZR (Zceil (mult_of atoms kpd / l))
            /\ mult_of atoms kpd / l <= IZR (Zceil (mult_of atoms kpd / l))).
  { intros l Hl.
    assert (Hq' : 0 < mult_of atoms kpd / l) by now apply Rdiv_lt_0_compat.
    destruct (floor_le_ceil_count _ Hq') as [H1 H2].
    repeat split; try assumption; try (now apply IZR_le).
    apply Zceil_bound. }
  destruct (Hl _ Ha) as (Qa & Fa & FCa & Ca).
  destruct (Hl _ Hb) as (Qb & Fb & FCb & Cb).
  destruct (Hl _ Hc) as (Qc & Fc & FCc & Cc).
  unfold dF, dC, F, C, grid_density, floor_candidate, ceil_candidate,
    get_cell_lengths, py.geti.
  cbn [map nth].
  repeat split.
  - repeat apply Rmult_lt_0_compat; lra.
  - rewrite !Rmult_assoc. apply Rmult_le_compat_l; [lra |].
    rewrite <- !Rmult_assoc. apply mult3_le; lra.
  - rewrite <- Hq at 1.
    rewrite !Rmult_assoc. apply Rmult_le_compat_l; [lra |].
    rewrite <- !Rmult_assoc. apply mult3_le; lra.
Qed.

(** The comparison of the two errors, cleared of quotients. *)
Lemma own_error_rule :
  error_vs_own kpd dC < error_vs_own kpd dF
  <-> 2 * dF * dC < kpd * (dF + dC).
Proof.
  destruct candidate_densities as (HF & HFC & HC).
  assert (HdC : 0 < dC) by lra.
  unfold error_vs_own.
  rewrite (Rabs_left1 (kpd - dC)) by lra.
  rewrite div_lt_cross by assumption.
  destruct (Rle_dec dF kpd) as [Hle | Hgt].
  - rewrite (Rabs_right (kpd - dF)) by lra. split; intros H; nra.
  - rewrite (Rabs_left (kpd - dF)) by lra.
    destruct Hvalid as (_ & _ & _ & _ & Hk). split; intros H; nra.
Qed.

Lemma legacy_by_rule :
  kgrid.kgrid_from_cell_volume atoms kpd
  = Some (if Rlt_dec (2 * dF * dC) (kpd * (dF + dC)) then C else F).
Proof.
  rewrite (kgrid_legacy_valid atoms kpd Hvalid). unfold own_error_choice.
  fold F C dF dC.
  destruct (Rlt_dec (error_vs_own kpd dC) (error_vs_own kpd dF)) as [H | H],
    (Rlt_dec (2 * dF * dC) (kpd * (dF + dC))) as [H' | H'];
    try reflexivity; exfalso.
  - apply H', own_error_rule, H.
  - apply H, own_error_rule, H'.
Qed.

End Candidates.

(** X8: on valid input [kgrid_from_cell_volume] (in both files) returns the
    all-ceil candidate exactly when the target density exceeds the harmonic
    mean of the two candidate densities, [2 * dF * dC < kpd * (dF + dC)], and
    the all-floor candidate otherwise. *)
Theorem legacy_harmonic_mean_rule (atoms : Atoms) (kpd : R) :
  valid_input atoms kpd ->
  let F := floor_candidate atoms kpd in
  let C := ceil_candidate atoms kpd in
  let dF := grid_density atoms F in
  let dC := grid_density atoms C in
  let choice :=
    if Rlt_dec (2 * dF * dC) (kpd * (dF + dC)) then C else F in
  kgrid.kgrid_from_cell_volume atoms kpd = Some choice
  /\ job_control.kgrid_from_cell_volume atoms kpd = Some choice.
Proof.
  intros H F C dF dC choice.
  split; [| rewrite (job_control_legacy_same atoms kpd)];
    exact (legacy_by_rule atoms kpd H).
Qed.

Lemma legacy_harmonic_mean_rule_witness :
  kgrid.kgrid_from_cell_volume unit_cube (27 / 8)
  = Some (if Rlt_dec
               (2 * grid_density unit_cube (floor_candidate unit_cube (27 / 8))
                * grid_density unit_cube (ceil_candidate unit_cube (27 / 8)))
               (27 / 8
                * (grid_density unit_cube (floor_candidate unit_cube (27 / 8))
                   + grid_density unit_cube
                       (ceil_candidate unit_cube (27 / 8))))
          then ceil_candidate unit_cube (27 / 8)
          else floor_candidate unit_cube (27 / 8)).
Proof.
  apply (legacy_harmonic_mean_rule unit_cube (27 / 8)).
  repeat split; cbn; lra.
Defined.

(** X9: in exact real arithmetic, on valid input the all-ceil candidate
    reaches the target, so a grid returned by [kgrid_from_cell_volume] below
    the target is the all-floor candidate. *)
Theorem legacy_miss_is_all_floor (atoms : Atoms) (kpd : R) (g : list Z) :
  valid_input atoms kpd ->
  kgrid.kgrid_from_cell_volume atoms kpd = Some g ->
  grid_density atoms g < kpd ->
  g = floor_candidate atoms kpd
  /\ kpd <= grid_density atoms (ceil_candidate atoms kpd).
Proof.
  intros H Hg Hlow.
  destruct (candidate_densities atoms kpd H) as (_ & _ & HC).
  split; [| exact HC].
  rewrite (legacy_by_rule atoms kpd H) in Hg.
  destruct (Rlt_dec _ _); injection Hg as <-; [lra | reflexivity].
Qed.

Lemma legacy_miss_is_all_floor_witness :
  [1; 1; 1]%Z = floor_candidate unit_cube (1331 / 1000)
  /\ 1331 / 1000
     <= grid_density unit_cube (ceil_candidate unit_cube (1331 / 1000)).
Proof.
  assert (H : valid_input unit_cube (1331 / 1000))
    by (repeat split; cbn; lra).
  apply (legacy_miss_is_all_floor unit_cube (1331 / 1000) [1; 1; 1]%Z H).
  - rewrite (kgrid_legacy_valid _ _ H). candidates_at (11 / 10).
    destruct (Rlt_dec _ _) as [L | L]; [exfalso; lra | reflexivity].
  - unfold grid_density, py.geti. cbn. lra.
Defined.

(** The all-floor candidate is the floored grid of the balanced solver at
    step 1. *)
Lemma floor_grid_is_candidate (atoms : Atoms) (kpd : R) :
  floor_grid 1 (fracs_of atoms kpd 1) = map IZR (floor_candidate atoms kpd).
Proof.
  unfold floor_grid, fracs_of, floor_candidate, frac_of.
  rewrite !map_map. apply map_ext. intros l.
  unfold np.floor. now rewrite Rdiv_1_r, Rmult_1_r.
Qed.

Lemma int_map_IZR (l : list Z) : map py.int (map IZR l) = l.
Proof.
  induction l as [| z l IH]; [reflexivity |].
  cbn [map]. now rewrite int_IZR, IH.
Qed.

Lemma density_map_IZR (atoms : Atoms) (g : list Z) :
  kgrid.density (get_volume atoms) (map IZR g) = grid_density atoms g.
Proof.
  unfold kgrid.density, grid_density, py.get, py.geti.
  replace 0 with (IZR 0) by reflexivity.
  now rewrite !map_nth.
Qed.

(** X10: on valid input, when the all-floor grid already reaches the target,
    every solver returns it: [kgrid_from_cell_volume] (both files),
    [safe_kgrid_from_cell_volume] (both files) and [get_kpts_from_kpd] with
    [only_even=False] agree. *)
Theorem solvers_agree_on_reaching_floor (atoms : Atoms) (kpd : R) :
  valid_input atoms kpd ->
  let F := floor_candidate atoms kpd in
  kpd <= grid_density atoms F ->
  kgrid.kgrid_from_cell_volume atoms kpd = Some F
  /\ job_control.kgrid_from_cell_volume atoms kpd = Some F
  /\ kgrid.safe_kgrid_from_cell_volume atoms kpd = Some F
  /\ job_control.safe_kgrid_from_cell_volume atoms kpd = Some F
  /\ kgrid.get_kpts_from_kpd atoms kpd false = Some F.
Proof.
  intros H F Hreach.
  assert (L : kgrid.kgrid_from_cell_volume atoms kpd = Some F).
  { rewrite (legacy_by_rule atoms kpd H). fold F.
    destruct (candidate_densities atoms kpd H) as (HF & HFC & HC).
    fold F in HF, HFC.
    destruct (Rlt_dec _ _) as [Hlt | _]; [exfalso | reflexivity].
    destruct H as (_ & _ & _ & _ & Hk). nra. }
  assert (G : kgrid.get_kpts_from_kpd atoms kpd false = Some F).
  { destruct (get_kpts_ranked atoms kpd false H)
      as (m & Hm & Heq & H0 & _).
    cbn [kgrid.step_of] in Heq, H0.
    rewrite floor_grid_is_candidate in Heq, H0.
    rewrite density_map_IZR in H0. fold F in Heq, H0.
    rewrite Heq, (H0 Hreach).
    change (raise_prefix 1 (map IZR F) ?o 0) with (map IZR F).
    now rewrite int_map_IZR. }
  destruct (safe_is_get_kpts atoms kpd) as (-> & ->).
  rewrite (job_control_legacy_same atoms kpd).
  repeat split; assumption.
Qed.

Lemma solvers_agree_on_reaching_floor_witness :
  kgrid.kgrid_from_cell_volume slab 8 = Some (floor_candidate slab 8)
  /\ job_control.kgrid_from_cell_volume slab 8 = Some (floor_candidate slab 8)
  /\ kgrid.safe_kgrid_from_cell_volume slab 8 = Some (floor_candidate slab 8)
  /\ job_control.safe_kgrid_from_cell_volume slab 8
     = Some (floor_candidate slab 8)
  /\ kgrid.get_kpts_from_kpd slab 8 false = Some (floor_candidate slab 8).
Proof.
  apply (solvers_agree_on_reaching_floor slab 8).
  - repeat split; cbn; lra.
  - unfold grid_density, floor_candidate, get_cell_lengths.
    rewrite (mult_of_at slab 8 2) by (cbn; lra).
    cbn [cell_a cell_b cell_c get_volume slab map].
    repeat run_step. lra.
Defined.

(** X11: on valid input every count returned by [kgrid_from_cell_volume] is
    at least 1 and less than 1 away from [max(mult / l, 1)] of its axis. *)
Theorem legacy_counts_near_quotients (atoms : Atoms) (kpd : R) :
  valid_input atoms kpd ->
  exists nx ny nz : Z,
    kgrid.kgrid_from_cell_volume atoms kpd = Some [nx; ny; nz]
    /\ Forall2
         (fun n l =>
            (1 <= n)%Z
            /\ py.max (mult_of atoms kpd / l) 1 - 1 < IZR n
               < py.max (mult_of atoms kpd / l) 1 + 1)
         [nx; ny; nz] (get_cell_lengths atoms).
Proof.
  intros H. pose proof (mult_of_pos atoms kpd H) as Hm.
  rewrite (legacy_by_rule atoms kpd H).
  destruct H as (Ha & Hb & Hc & Hv & Hk).
  assert (Hl : forall l, 0 < l ->
            let q := mult_of atoms kpd / l in
            ((1 <= Zfloor (py.max q 1))%Z
             /\ py.max q 1 - 1 < IZR (Zfloor (py.max q 1)) < py.max q 1 + 1)
            /\ ((1 <= Zceil q)%Z
                /\ py.max q 1 - 1 < IZR (Zceil q) < py.max q 1 + 1)).
  { intros l Hl q.
    assert (Hq : 0 < q) by now apply Rdiv_lt_0_compat.
    destruct (floor_le_ceil_count q Hq) as [H1 H2].
    pose proof (Zfloor_bound (py.max q 1)) as Hfb.
    pose proof (Zceil_bound q) as Hcb.
    pose proof (ceil_pos_ge_1 q Hq) as Hc1. apply IZR_le in Hc1.
    repeat split; try lia; try lra;
      unfold py.max in *; destruct (Rlt_dec q 1); lra. }
  destruct (Hl _ Ha) as (Fa & Ca).
  destruct (Hl _ Hb) as (Fb & Cb).
  destruct (Hl _ Hc) as (Fc & Cc).
  unfold floor_candidate, ceil_candidate, get_cell_lengths. cbn [map].
  destruct (Rlt_dec _ _); eexists _, _, _; (split; [reflexivity |]);
    repeat (constructor; [assumption |]); constructor.
Qed.

Lemma legacy_counts_near_quotients_witness :
  exists nx ny nz : Z,
    kgrid.kgrid_from_cell_volume slab (343 / 64) = Some [nx; ny; nz]
    /\ Forall2
         (fun n l =>
            (1 <= n)%Z
            /\ py.max (mult_of slab (343 / 64) / l) 1 - 1 < IZR n
               < py.max (mult_of slab (343 / 64) / l) 1 + 1)
         [nx; ny; nz] (get_cell_lengths slab).
Proof.
  apply (legacy_counts_near_quotients slab (343 / 64)).
  repeat split; cbn; lra.
Defined.

(** ** Inputs outside the contract *)

Lemma pow_third_negative (x : R) : x < 0 -> py.pow_third x = None.
Proof.
  intros H. unfold py.pow_third. destruct (Rlt_dec x 0); [reflexivity | lra].
Qed.

(** X13: a negative target density on a cell with positive lengths and volume
    yields no grid from any of the solvers: the cube root is taken of a
    negative number. *)
Theorem negative_density_no_grid (atoms : Atoms) (kpd : R) (only_even : bool) :
  0 < cell_a atoms -> 0 < cell_b atoms -> 0 < cell_c atoms ->
  0 < get_volume atoms -> kpd < 0 ->
  kgrid.get_kpts_from_kpd atoms kpd only_even = None
  /\ kgrid.safe_kgrid_from_cell_volume atoms kpd = None
  /\ job_control.safe_kgrid_from_cell_volume atoms kpd = None
  /\ kgrid.kgrid_from_cell_volume atoms kpd = None
  /\ job_control.kgrid_from_cell_volume atoms kpd = None.
Proof.
  intros Ha Hb Hc Hv Hk.
  assert (Hr : kpd / get_volume atoms * cell_a atoms * cell_b atoms
               * cell_c atoms < 0).
  { assert (0 < - kpd / get_volume atoms) by (apply Rdiv_lt_0_compat; lra).
    assert (0 < - kpd / get_volume atoms * cell_a atoms * cell_b atoms
                * cell_c atoms)
      by (do 3 (apply Rmult_lt_0_compat; [| assumption]); assumption).
    unfold Rdiv in *. lra. }
  assert (G : forall e, kgrid.get_kpts_from_kpd atoms kpd e = None).
  { intros e.
    unfold kgrid.get_kpts_from_kpd, kgrid.kpts_and_density, kgrid.fractions,
      get_cell_lengths.
    cbn [py.get nth]. rewrite div_some by lra. cbn [py.bind].
    now rewrite pow_third_negative. }
  assert (L : kgrid.kgrid_from_cell_volume atoms kpd = None).
  { unfold kgrid.kgrid_from_cell_volume, get_cell_lengths.
    cbn [py.get nth]. rewrite div_some by lra. cbn [py.bind].
    now rewrite pow_third_negative. }
  destruct (safe_is_get_kpts atoms kpd) as (-> & ->).
  rewrite (job_control_legacy_same atoms kpd).
  repeat split; auto.
Qed.

Lemma negative_density_no_grid_witness :
  kgrid.get_kpts_from_kpd unit_cube (-1) false = None
  /\ kgrid.safe_kgrid_from_cell_volume unit_cube (-1) = None
  /\ job_control.safe_kgrid_from_cell_volume unit_cube (-1) = None
  /\ kgrid.kgrid_from_cell_volume unit_cube (-1) = None
  /\ job_control.kgrid_from_cell_volume unit_cube (-1) = None.
Proof.
  apply (negative_density_no_grid unit_cube (-1) false); cbn; lra.
Defined.

(** ** Directories and names of [vasp_job_maker] *)

Lemma chars_append (s t : String.string) :
  String.list_ascii_of_string (String.append s t)
  = String.list_ascii_of_string s ++ String.list_ascii_of_string t.
Proof.
  induction s as [| c s IH]; [reflexivity |]. cbn. now rewrite IH.
Qed.

Lemma chars_inj (s t : String.string) :
  String.list_ascii_of_string s = String.list_ascii_of_string t -> s = t.
Proof.
  intros H. apply (f_equal String.string_of_list_ascii) in H.
  now rewrite !String.string_of_list_ascii_of_string in H.
Qed.

Lemma str_inj (i j : nat) : job_control.str i = job_control.str j -> i = j.
Proof.
  unfold job_control.str. intros H.
  apply DecimalNat.Unsigned.to_uint_inj.
  apply (f_equal DecimalString.NilEmpty.uint_of_string) in H.
  rewrite !DecimalString.NilEmpty.usu in H. now injection H.
Qed.

Lemma str_no_slash (n : nat) :
  ~ In "/"%char (String.list_ascii_of_string (job_control.str n)).
Proof.
  unfold job_control.str. generalize (Nat.to_uint n). intros d.
  induction d; cbn; try tauto; intros [H | H]; try discriminate; auto.
Qed.

Lemma split_first {A : Type} (x : A) (l1 l2 r1 r2 : list A) :
  ~ In x l1 -> ~ In x l2 -> l1 ++ x :: r1 = l2 ++ x :: r2 ->
  l1 = l2 /\ r1 = r2.
Proof.
  revert l2. induction l1 as [| a l1 IH]; intros [| b l2] H1 H2 E;
    cbn in *.
  - injection E as E. now split.
  - injection E as -> E. tauto.
  - injection E as -> E. tauto.
  - injection E as -> E.
    destruct (IH l2) as [-> ->]; tauto.
Qed.

Lemma recognised_no_underscore (t : String.string) :
  job_control.recognised t ->
  ~ In "_"%char (String.list_ascii_of_string t).
Proof.
  intros [-> | [-> | ->]]; cbn; intros H;
    repeat (destruct H as [H | H]; [discriminate |]); exact H.
Qed.

(** The characters of a structure directory. *)
Lemma struct_dir_chars (job : job_control.job_type) (n : nat) :
  String.list_ascii_of_string (job_control.struct_dir job n)
  = String.list_ascii_of_string (job_control.structure_type job)
    ++ "_"%char
       :: rev ("/"%char
               :: rev (String.list_ascii_of_string (job_control.str n))
               ++ "/"%char
                  :: rev (String.list_ascii_of_string
                            (job_control.calculator job))).
Proof.
  unfold job_control.struct_dir, job_control.job_type_dir.
  rewrite !chars_append. cbn [String.list_ascii_of_string].
  cbn [rev]. rewrite !rev_app_distr. cbn [rev app].
  rewrite !rev_involutive, <- !app_assoc. reflexivity.
Qed.

(** X14: whatever the job, two structure numbers with the same structure
    directory [job_type_dir + str(structure_number) + '/'], or with the same
    job name, are the same number: the structures of a job never share a
    directory or a job name. *)
Theorem structure_number_determined (name_prefix : String.string)
    (job : job_control.job_type) (n1 n2 : nat) :
  job_control.struct_dir job n1 = job_control.struct_dir job n2
  \/ job_control.job_name name_prefix job n1
     = job_control.job_name name_prefix job n2 ->
  n1 = n2.
Proof.
  intros [E | E]; apply (f_equal String.list_ascii_of_string) in E.
  - unfold job_control.struct_dir in E. rewrite !chars_append in E.
    apply app_inv_tail, app_inv_head in E.
    now apply str_inj, chars_inj.
  - unfold job_control.job_name in E. rewrite !chars_append in E.
    do 6 apply app_inv_head in E.
    now apply str_inj, chars_inj.
Qed.

Lemma structure_number_determined_witness : 7%nat = 7%nat.
Proof.
  apply (structure_number_determined "run"%string
           (job_control.mkJob 9 "custom_type"%string "sp"%string) 7 7).
  left. reflexivity.
Defined.

(** X15: for the structure types [vasp_job_maker] accepts, a structure
    directory determines the structure type, the calculator and the structure
    number: two entries of [jobs] share a structure directory only if they
    agree in type and calculator and the structure number is the same (the
    count [job_type[0]] is no part of the name). *)
Theorem struct_dir_injective (job1 job2 : job_control.job_type)
    (n1 n2 : nat) :
  job_control.recognised (job_control.structure_type job1) ->
  job_control.recognised (job_control.structure_type job2) ->
  job_control.struct_dir job1 n1 = job_control.struct_dir job2 n2 ->
  job_control.structure_type job1 = job_control.structure_type job2
  /\ job_control.calculator job1 = job_control.calculator job2
  /\ n1 = n2.
Proof.
  intros R1 R2 E. apply (f_equal String.list_ascii_of_string) in E.
  rewrite !struct_dir_chars in E.
  apply split_first in E; try now apply recognised_no_underscore.
  destruct E as [ET E]. apply (f_equal (@rev Ascii.ascii)) in E.
  rewrite !rev_involutive in E. injection E as E.
  apply split_first in E;
    try (rewrite <- in_rev; apply str_no_slash).
  destruct E as [ES EC].
  apply (f_equal (@rev Ascii.ascii)) in ES, EC.
  rewrite !rev_involutive in ES, EC.
  split; [now apply chars_inj |]. split; [now apply chars_inj |].
  now apply str_inj, chars_inj.
Qed.

Lemma struct_dir_injective_witness :
  job_control.structure_type
    (job_control.mkJob 2 "random"%string "md"%string)
  = job_control.structure_type
      (job_control.mkJob 5 "random"%string "md"%string)
  /\ job_control.calculator (job_control.mkJob 2 "random"%string "md"%string)
     = job_control.calculator
         (job_control.mkJob 5 "random"%string "md"%string)
  /\ 1%nat = 1%nat.
Proof.
  apply (struct_dir_injective
           (job_control.mkJob 2 "random"%string "md"%string)
           (job_control.mkJob 5 "random"%string "md"%string) 1 1).
  - left. reflexivity.
  - left. reflexivity.
  - reflexivity.
Defined.
